(** * Seat reservation handlers of the movie reservation system

    A shallow embedding of the two handlers of
    [src/app/api/[[...slugs]]/route.ts] that change the seat inventory,
    [POST /screening/:id/reserve] and [DELETE /screening/:id/cancel], over an
    explicit model of the two tables they touch.

    Modelling decisions, all taken from the source:
    - The [screening] table has a primary key [id]; it is a finite map from
      the id to the remaining columns.
    - The [reservation] table is the list of its rows in insertion order.
      The query of [cancel] has no [ORDER BY]; the model lets [res[0]] be
      the oldest matching row, and the statements about [cancel] do not say
      which matching row is taken.  Its primary key [id] is enforced at
      [insert]: a duplicate id
      makes the store throw, which the handler does not catch.
    - Seat coordinates sent in a request body are JavaScript numbers; the
      model covers the integer ones ([Z]).  A stored seat keeps its row as a
      string, as [String(seat.row)] wrote it, and the handlers read it back
      with [Number(s.row)].  The two conversions are modelled on decimal
      numerals and agree with JavaScript on the safe integers, those of
      magnitude below 2^53 ([safe]); statements that compare stored rows or
      name a row or a number in a text are made for that range.
    - [crypto.randomUUID()] and [new Date()] are values supplied by the
      environment; they are arguments of [reserve]. *)

From Stdlib Require Import ZArith String Ascii List Bool Lia.
From Stdlib Require Import DecimalString DecimalZ.
From stdpp Require Import base option list gmap strings.

Import ListNotations.
Local Open Scope string_scope.
Local Open Scope Z_scope.
Local Open Scope list_scope.

(** ** JavaScript numbers and the two conversions the handlers use *)

(** The value of [Number(x)]: an integer, or [NaN]. *)
Inductive JsNumber : Type :=
| NaN : JsNumber
| Num : Z -> JsNumber.

(** [a === b] on numbers: [NaN] is different from everything, itself
    included. *)
Definition strict_eq (a b : JsNumber) : bool :=
  match a, b with
  | Num x, Num y => Z.eqb x y
  | _, _ => false
  end.

(** [String(n)] for an integer [n]: its decimal numeral, with a leading
    minus sign for a negative one.  This is JavaScript's [String] on the
    safe integers; beyond them JavaScript prints the shortest digits that
    read back, and from 10^21 on an exponent ([String(1e21)] is ["1e+21"]),
    which this definition does not follow. *)
Definition String_ (n : Z) : string :=
  NilZero.string_of_int (Z.to_int n).

(** [Number(s)] for a string [s]: the empty string is [0]; an optional
    sign followed by one or more decimal digits is that integer; a string
    that is no number, such as a letter, is [NaN].  JavaScript also reads
    numerals with surrounding white space, a fraction, an exponent or a
    radix prefix, and rounds a numeral beyond 2^53; this definition takes
    the former as [NaN] and keeps the latter exact.  [reserve] writes such
    rows for coordinates that are not safe integers (["1e+21"] for 1e21,
    ["1.5"] for 1.5), so the definition is JavaScript's [Number] on the rows
    written for safe integers, not on all rows. *)
Definition Number_ (s : string) : JsNumber :=
  match s with
  | EmptyString => Num 0
  | String "+"%char t =>
      match NilZero.uint_of_string t with
      | Some d => Num (Z.of_uint d)
      | None => NaN
      end
  | _ =>
      match NilZero.int_of_string s with
      | Some d => Num (Z.of_int d)
      | None => NaN
      end
  end.

(** ** Data model ([src/types.ts], [src/drizzle/0000_sour_thing.sql]) *)

(** [interface Seat]. *)
Record Seat : Type := mkSeat {
  row : string;
  number : Z;
  isAvailable : bool
}.

(** One element of [body.seats]: [z.object({row: z.number(), number:
    z.number()})]. *)
Record BodySeat : Type := mkBodySeat {
  body_row : Z;
  body_number : Z
}.

(** A row of the [screening] table, without its key.  [price] is the
    [numeric(10, 2)] column, which the driver hands over as a string. *)
Record Screening : Type := mkScreening {
  movieId : string;
  auditoriumId : string;
  startTime : Z;
  endTime : Z;
  price : string;
  takenSeats : list Seat
}.

(** A row of the [reservation] table. *)
Record Reservation : Type := mkReservation {
  id : string;
  userId : string;
  screeningId : string;
  seats : list Seat;
  totalPrice : string;
  createdAt : Z
}.

(** The two tables. *)
Record Store : Type := mkStore {
  screeningTable : gmap string Screening;
  reservationTable : list Reservation
}.

(** What a handler leaves for the client. *)
Inductive Response : Type :=
| ReservationSuccessful (reservationId : string)
    (* { message: "Reservation successful", reservationId } *)
| ReservationCancelled
    (* { message: "Reservation cancelled successfully" } *)
| ErrorReply (status : Z) (error : string)
    (* set.status = status; return { error } *)
| StoreThrew.
    (* the store rejected a statement and the handler did not catch it *)

(** ** Store statements *)

(** [db.select().from(screeningTable).where(eq(id, screeningId))
    .then(res => res[0])]. *)
Definition select_screening (st : Store) (sid : string) : option Screening :=
  screeningTable st !! sid.

Definition set_takenSeats (v : list Seat) (s : Screening) : Screening :=
  mkScreening (movieId s) (auditoriumId s) (startTime s) (endTime s)
              (price s) v.

(** [db.update(screeningTable).set({ takenSeats: v }).where(eq(id,
    screeningId))]: no row is touched when the id is absent. *)
Definition update_takenSeats (st : Store) (sid : string) (v : list Seat)
  : Store :=
  mkStore (alter (set_takenSeats v) sid (screeningTable st))
          (reservationTable st).

Definition has_id (i : string) (r : Reservation) : bool :=
  String.eqb (id r) i.

(** [db.insert(reservationTable).values(r)]: [None] when the primary key is
    already in the table. *)
Definition insert_reservation (st : Store) (r : Reservation) : option Store :=
  if existsb (has_id (id r)) (reservationTable st) then None
  else Some (mkStore (screeningTable st) (reservationTable st ++ [r])).

(** [db.delete(reservationTable).where(eq(id, i))]. *)
Definition delete_reservation (st : Store) (i : string) : Store :=
  mkStore (screeningTable st)
          (List.filter (fun r => negb (has_id i r)) (reservationTable st)).

Definition for_screening_and_user (sid uid : string) (r : Reservation)
  : bool :=
  String.eqb (screeningId r) sid && String.eqb (userId r) uid.

(** [db.select().from(reservationTable).where(and(eq(screeningId, sid),
    eq(userId, uid))).then(res => res[0])].  The query has no [ORDER BY]:
    which matching row comes first is the store's choice, taken here to be
    the oldest.  The statements about [cancel] say that a matching row is
    the one cancelled, not which one. *)
Definition select_reservation (st : Store) (sid uid : string)
  : option Reservation :=
  List.find (for_screening_and_user sid uid) (reservationTable st).

(** ** POST /screening/:id/reserve *)

(** The callback of [takenSeats.find] at line 175:
    [Number(s.row) === seat.row && Number(s.number) === seat.number]. *)
Definition taken_by (seat : BodySeat) (s : Seat) : bool :=
  strict_eq (Number_ (row s)) (Num (body_row seat))
  && strict_eq (Num (number s)) (Num (body_number seat)).

(** The callback of [seats.map] at lines 183 and 198. *)
Definition as_taken (seat : BodySeat) : Seat :=
  mkSeat (String_ (body_row seat)) (body_number seat) false.

(** The first requested seat the [for] loop stops on, if any. *)
Definition first_conflict (takenSeats0 : list Seat) (seats0 : list BodySeat)
  : option BodySeat :=
  List.find (fun seat => existsb (taken_by seat) takenSeats0) seats0.

Definition already_taken (seat : BodySeat) : string :=
  ("Seat row " ++ String_ (body_row seat) ++ " number "
   ++ String_ (body_number seat) ++ " is already taken")%string.

Definition reserve (st : Store) (sid uid : string) (seats0 : list BodySeat)
    (uuid : string) (now : Z) : Store * Response :=
  match select_screening st sid with
  | None => (st, ErrorReply 404 "Screening not found")
  | Some screening =>
      let takenSeats0 := takenSeats screening in
      match first_conflict takenSeats0 seats0 with
      | Some seat => (st, ErrorReply 400 (already_taken seat))
      | None =>
          let updatedTakenSeats := takenSeats0 ++ map as_taken seats0 in
          let st1 := update_takenSeats st sid updatedTakenSeats in
          let reservation :=
            mkReservation uuid uid sid (map as_taken seats0)
                          (price screening) now in
          match insert_reservation st1 reservation with
          | None => (st1, StoreThrew)
          | Some st2 => (st2, ReservationSuccessful (id reservation))
          end
      end
  end.

(** The store after a [reserve] that passed the two checks and whose
    insert was accepted. *)
Definition reserved (st : Store) (sid uid : string) (seats0 : list BodySeat)
    (uuid : string) (now : Z) (screening : Screening) : Store :=
  mkStore
    (<[sid := set_takenSeats (takenSeats screening ++ map as_taken seats0)
                             screening]> (screeningTable st))
    (reservationTable st
     ++ [mkReservation uuid uid sid (map as_taken seats0) (price screening)
                       now]).

(** ** DELETE /screening/:id/cancel *)

(** The callback of [reservation.seats.find] at line 263:
    [Number(rSeat.row) === Number(seat.row) &&
     Number(rSeat.number) === Number(seat.number)]. *)
Definition same_seat (seat rSeat : Seat) : bool :=
  strict_eq (Number_ (row rSeat)) (Number_ (row seat))
  && strict_eq (Num (number rSeat)) (Num (number seat)).

(** The callback of [screening.takenSeats.filter] at line 262. *)
Definition stays_taken (reservation : Reservation) (seat : Seat) : bool :=
  negb (existsb (same_seat seat) (seats reservation)).

Definition cancel (st : Store) (sid uid : string) : Store * Response :=
  match select_reservation st sid uid with
  | None => (st, ErrorReply 404 "Reservation not found")
  | Some reservation =>
      let st1 := delete_reservation st (id reservation) in
      match select_screening st1 sid with
      | Some screening =>
          let updatedTakenSeats :=
            List.filter (stays_taken reservation) (takenSeats screening) in
          (update_takenSeats st1 sid updatedTakenSeats, ReservationCancelled)
      | None => (st1, ReservationCancelled)
      end
  end.

(** ** Sequences of calls *)

Inductive Call : Type :=
| Reserve (sid uid : string) (seats0 : list BodySeat) (uuid : string)
          (now : Z)
| Cancel (sid uid : string).

Definition call (st : Store) (c : Call) : Store * Response :=
  match c with
  | Reserve sid uid seats0 uuid now => reserve st sid uid seats0 uuid now
  | Cancel sid uid => cancel st sid uid
  end.

(** The calls one after the other, each one finished before the next
    starts; the responses in call order. *)
Fixpoint run (st : Store) (cs : list Call) : Store * list Response :=
  match cs with
  | [] => (st, [])
  | c :: cs' =>
      let '(st1, r) := call st c in
      let '(st2, rs) := run st1 cs' in
      (st2, r :: rs)
  end.

Definition final (st : Store) (cs : list Call) : Store := fst (run st cs).
Definition responses (st : Store) (cs : list Call) : list Response :=
  snd (run st cs).

(** Every UUID the environment hands to a [Reserve] call is new to the
    reservation table at the time of that call. *)
Fixpoint fresh_uuids (st : Store) (cs : list Call) : bool :=
  match cs with
  | [] => true
  | c :: cs' =>
      match c with
      | Reserve _ _ _ uuid _ =>
          negb (existsb (has_id uuid) (reservationTable st))
      | Cancel _ _ => true
      end
      && fresh_uuids (fst (call st c)) cs'
  end.

(** ** Calls in flight

    A handler gives up control at each [await], that is at each store
    statement, and the handlers of other requests may run in between.  A
    [reserve] call in flight is at one of its three statements, holding the
    screening row it read, or has returned. *)

Inductive ReserveTask : Type :=
| AtSelect (sid uid : string) (seats0 : list BodySeat) (uuid : string)
           (now : Z)
| AtUpdate (sid uid : string) (seats0 : list BodySeat) (uuid : string)
           (now : Z) (screening : Screening)
| AtInsert (sid uid : string) (seats0 : list BodySeat) (uuid : string)
           (now : Z) (screening : Screening)
| Returned (r : Response).

(** One statement of the handler, and the code up to the next one. *)
Definition step (st : Store) (t : ReserveTask) : Store * ReserveTask :=
  match t with
  | AtSelect sid uid seats0 uuid now =>
      match select_screening st sid with
      | None => (st, Returned (ErrorReply 404 "Screening not found"))
      | Some screening =>
          match first_conflict (takenSeats screening) seats0 with
          | Some seat => (st, Returned (ErrorReply 400 (already_taken seat)))
          | None => (st, AtUpdate sid uid seats0 uuid now screening)
          end
      end
  | AtUpdate sid uid seats0 uuid now screening =>
      (update_takenSeats st sid (takenSeats screening ++ map as_taken seats0),
       AtInsert sid uid seats0 uuid now screening)
  | AtInsert sid uid seats0 uuid now screening =>
      let reservation :=
        mkReservation uuid uid sid (map as_taken seats0) (price screening)
                      now in
      match insert_reservation st reservation with
      | None => (st, Returned StoreThrew)
      | Some st2 => (st2, Returned (ReservationSuccessful (id reservation)))
      end
  | Returned r => (st, Returned r)
  end.

(** The calls [ts] in flight together; [sched] names, statement by
    statement, the call that runs next. *)
Fixpoint interleave (st : Store) (ts : list ReserveTask) (sched : list nat)
  : Store * list ReserveTask :=
  match sched with
  | [] => (st, ts)
  | i :: sched' =>
      match ts !! i with
      | Some t =>
          let '(st1, t1) := step st t in
          interleave st1 (<[i := t1]> ts) sched'
      | None => interleave st ts sched'
      end
  end.

(** A [reserve] call as it starts. *)
Definition in_flight (sid : string) (seat : BodySeat)
    (a : string * string * Z) : ReserveTask :=
  let '(uid, uuid, now) := a in AtSelect sid uid [seat] uuid now.

Definition in_turn_call (sid : string) (seat : BodySeat)
    (a : string * string * Z) : Call :=
  let '(uid, uuid, now) := a in Reserve sid uid [seat] uuid now.

(** The schedule that runs calls [k], [k + 1], ... of [n] calls in turn:
    the three statements of one call, then those of the next. *)
Definition in_turn (k n : nat) : list nat :=
  concat (map (fun i => [i; i; i]) (seq k n)).

Definition succeeded (t : ReserveTask) : bool :=
  match t with
  | Returned (ReservationSuccessful _) => true
  | _ => false
  end.

(** ** Seat sets and the properties of a store *)

(** A seat is identified by its (row, number) pair. *)
Definition seat_id (s : Seat) : string * Z := (row s, number s).

Definition seat_set (l : list Seat) : gset (string * Z) :=
  list_to_set (seat_id <$> l).

Definition of_screening (sid : string) (r : Reservation) : bool :=
  String.eqb (screeningId r) sid.

(** The reservations of a screening: a reservation is active from its
    insertion to its deletion. *)
Definition active_reservations (st : Store) (sid : string)
  : list Reservation :=
  List.filter (of_screening sid) (reservationTable st).

(** The union of the seat lists of the active reservations. *)
Definition reserved_set (st : Store) (sid : string) : gset (string * Z) :=
  ⋃ ((fun r => seat_set (seats r)) <$> active_reservations st sid).

Definition taken_set (screening : Screening) : gset (string * Z) :=
  seat_set (takenSeats screening).

(** No drift: the taken seats of every screening are the seats of its
    active reservations. *)
Definition no_drift (st : Store) : Prop :=
  forall sid screening,
    screeningTable st !! sid = Some screening ->
    taken_set screening = reserved_set st sid.

(** The primary key of the reservation table. *)
Definition unique_ids (st : Store) : Prop :=
  NoDup (id <$> reservationTable st).

(** The row of a stored seat is the numeral [String] writes. *)
Definition numeric_row (s : Seat) : Prop :=
  exists z : Z, row s = String_ z.

Definition numeric_rows (st : Store) : Prop :=
  forall r s, r ∈ reservationTable st -> s ∈ seats r -> numeric_row s.

(** No seat of a screening is held by two reservations. *)
Definition no_double_booking (st : Store) : Prop :=
  forall r1 r2 s1 s2,
    r1 ∈ reservationTable st -> r2 ∈ reservationTable st ->
    id r1 <> id r2 -> screeningId r1 = screeningId r2 ->
    s1 ∈ seats r1 -> s2 ∈ seats r2 -> seat_id s1 <> seat_id s2.

Record consistent (st : Store) : Prop := mkConsistent {
  consistent_no_drift : no_drift st;
  consistent_unique_ids : unique_ids st;
  consistent_numeric_rows : numeric_rows st;
  consistent_no_double_booking : no_double_booking st
}.

(** The number of reservations a user holds for a screening. *)
Definition held (st : Store) (sid uid : string) : nat :=
  length (List.filter (for_screening_and_user sid uid) (reservationTable st)).

(** A request seat is in a list of stored seats when a stored seat has its
    row and its number. *)
Definition seat_in (seat : BodySeat) (l : list Seat) : Prop :=
  exists s, s ∈ l /\ Number_ (row s) = Num (body_row seat)
            /\ number s = body_number seat.

(** Two stored seats have the same row and number: their rows read as the
    same number and their numbers are equal. *)
Definition same_row_and_number (seat rSeat : Seat) : Prop :=
  exists z, Number_ (row rSeat) = Num z /\ Number_ (row seat) = Num z
            /\ number rSeat = number seat.

(** At most one reservation for each user and screening. *)
Definition at_most_one_per_user (st : Store) : Prop :=
  forall sid uid, (held st sid uid <= 1)%nat.

(** A [Reserve] call for the single seat [seat] of screening [sid]. *)
Definition requests (sid : string) (seat : BodySeat) (c : Call) : Prop :=
  match c with
  | Reserve sid' _ seats0 _ _ => sid' = sid /\ seats0 = [seat]
  | Cancel _ _ => False
  end.

(** A store for the examples: one screening, no seat taken, no
    reservation. *)
Definition screening0 : Screening :=
  mkScreening "m1" "a1" 0 7200 "12.50" [].

Definition store0 : Store := mkStore {[ "s1" := screening0 ]} [].

(** Two users hold seat (1, 2) of the same screening. *)
Definition double_booked : Store :=
  mkStore
    {[ "s1" := set_takenSeats [mkSeat "1" 2 false] screening0 ]}
    [mkReservation "r1" "u1" "s1" [mkSeat "1" 2 false] "12.50" 5;
     mkReservation "r2" "u2" "s1" [mkSeat "1" 2 false] "12.50" 6].

Definition seat12 : BodySeat := mkBodySeat 1 2.

(** User [u1] holds seat (1, 2) of screening [s1]. *)
Definition store1 : Store :=
  mkStore
    {[ "s1" := set_takenSeats [mkSeat "1" 2 false] screening0 ]}
    [mkReservation "r1" "u1" "s1" [mkSeat "1" 2 false] "12.50" 5].

(** Users [u1] and [u2] hold seats of screening [s1]. *)
Definition store2 : Store :=
  mkStore
    {[ "s1" := set_takenSeats
                 [mkSeat "1" 2 false; mkSeat "1" 3 false; mkSeat "2" 3 false]
                 screening0 ]}
    [mkReservation "r1" "u1" "s1" [mkSeat "1" 2 false] "12.50" 5;
     mkReservation "r2" "u2" "s1" [mkSeat "1" 3 false; mkSeat "2" 3 false]
                   "12.50" 6].

(** A store whose seat has a letter for a row, which [reserve] cannot
    write: user [u1] holds seat (A, 1). *)
Definition store_letter : Store :=
  mkStore
    {[ "s1" := set_takenSeats [mkSeat "A" 1 false] screening0 ]}
    [mkReservation "r1" "u1" "s1" [mkSeat "A" 1 false] "12.50" 5].

(** ** The range where the conversions are exact *)

(** The decimal numeral of an integer, as the statements write it. *)
Abbreviation decimal z := (NilZero.string_of_int (Z.to_int z)) (only parsing).

(** [Number.isSafeInteger]. *)
Definition safe (z : Z) : Prop := - 2 ^ 53 < z < 2 ^ 53.

(** A requested seat with safe coordinates. *)
Definition safe_request (seat : BodySeat) : Prop :=
  safe (body_row seat) /\ safe (body_number seat).

(** A stored seat whose row is the numeral of a safe integer and whose number
    is safe, as [reserve] writes it for a safe request. *)
Definition safe_seat (s : Seat) : Prop :=
  (exists z : Z, safe z /\ row s = decimal z) /\ safe (number s).

(** A stored seat of the list has the row numeral and the number of the
    requested seat. *)
Definition holds (l : list Seat) (seat : BodySeat) : Prop :=
  exists s, s ∈ l /\ row s = decimal (body_row seat)
            /\ number s = body_number seat.

(** ** The admin handlers on screenings and movies

    [POST /admin/screening], [DELETE /admin/screening/:id] and
    [DELETE /admin/movie/:id] reach the screening and reservation tables
    through the foreign keys of [src/drizzle/0000_sour_thing.sql]: a
    screening references a movie and an auditorium, a reservation references
    a screening, each [ON DELETE cascade].  These handlers use the movie and
    auditorium tables by key only, so the two tables are kept as their sets
    of keys. *)

Record Db : Type := mkDb {
  movieTable : gset string;
  auditoriumTable : gset string;
  store : Store
}.

Inductive AdminResponse : Type :=
| ScreeningAdded (newId : string)
    (* { message: 'Screening added successfully', screeningId } *)
| ScreeningDeleted
    (* { message: 'Screening deleted successfully' } *)
| MovieDeleted
    (* { message: 'Movie deleted successfully' } *)
| AdminStoreThrew.
    (* the insert was rejected and the handler did not catch it *)

Definition with_store (db : Db) (st : Store) : Db :=
  mkDb (movieTable db) (auditoriumTable db) st.

(** [POST /admin/screening].  [startTime0] and [endTime0] are
    [new Date(body.startTime)] and [new Date(body.endTime)], [None] for an
    invalid date, which cannot be written; [price0] is the text of
    [body.price.toString()] as the numeric column keeps it (a price the
    column cannot hold is not covered); [uuid] is [crypto.randomUUID()].
    The insert is rejected when the key is in use or a referenced movie or
    auditorium is missing. *)
Definition create_screening (db : Db) (movieId0 auditoriumId0 : string)
    (startTime0 endTime0 : option Z) (price0 uuid : string)
  : Db * AdminResponse :=
  match startTime0, endTime0 with
  | Some startTime1, Some endTime1 =>
      let newScreening :=
        mkScreening movieId0 auditoriumId0 startTime1 endTime1 price0 [] in
      match screeningTable (store db) !! uuid with
      | Some _ => (db, AdminStoreThrew)
      | None =>
          if bool_decide (movieId0 ∈ movieTable db)
             && bool_decide (auditoriumId0 ∈ auditoriumTable db)
          then (with_store db
                  (mkStore (<[uuid := newScreening]>
                              (screeningTable (store db)))
                           (reservationTable (store db))),
                ScreeningAdded uuid)
          else (db, AdminStoreThrew)
      end
  | _, _ => (db, AdminStoreThrew)
  end.

(** [DELETE /admin/screening/:id]: the row goes, and with it the
    reservations that reference it; the answer is the same when there is no
    such row. *)
Definition delete_screening (db : Db) (sid : string) : Db * AdminResponse :=
  match screeningTable (store db) !! sid with
  | Some _ =>
      (with_store db
         (mkStore (delete sid (screeningTable (store db)))
                  (List.filter (fun r => negb (of_screening sid r))
                               (reservationTable (store db)))),
       ScreeningDeleted)
  | None => (db, ScreeningDeleted)
  end.

Definition of_movie (mid : string) (s : Screening) : bool :=
  String.eqb (movieId s) mid.

(** The screening a reservation references shows movie [mid]. *)
Definition books_movie (tbl : gmap string Screening) (mid : string)
    (r : Reservation) : bool :=
  match tbl !! screeningId r with
  | Some s => of_movie mid s
  | None => false
  end.

(** [DELETE /admin/movie/:id]: the row goes, with the screenings that
    reference it and the reservations that reference these. *)
Definition delete_movie (db : Db) (mid : string) : Db * AdminResponse :=
  if bool_decide (mid ∈ movieTable db) then
    (mkDb (movieTable db ∖ {[ mid ]}) (auditoriumTable db)
          (mkStore
             (filter (fun kv => of_movie mid kv.2 = false)
                     (screeningTable (store db)))
             (List.filter
                (fun r => negb (books_movie (screeningTable (store db)) mid r))
                (reservationTable (store db)))),
     MovieDeleted)
  else (db, MovieDeleted).





(** The foreign keys. *)
Definition screening_fk (db : Db) : Prop :=
  forall sid s,
    screeningTable (store db) !! sid = Some s ->
    movieId s ∈ movieTable db /\ auditoriumId s ∈ auditoriumTable db.

Definition reservation_fk (st : Store) : Prop :=
  forall r, r ∈ reservationTable st ->
            is_Some (screeningTable st !! screeningId r).

Record integral (db : Db) : Prop := mkIntegral {
  integral_consistent : consistent (store db);
  integral_screening_fk : screening_fk db;
  integral_reservation_fk : reservation_fk (store db)
}.

(** ** A [cancel] call in flight

    The four statements of the [cancel] handler, as [ReserveTask] has the
    three of [reserve]. *)
Inductive CancelTask : Type :=
| AtSelectReservation (sid uid : string)
| AtDelete (sid uid : string) (reservation : Reservation)
| AtSelectScreening (sid uid : string) (reservation : Reservation)
| AtFree (sid uid : string) (reservation : Reservation)
         (screening : Screening)
| CancelReturned (r : Response).

Definition step_cancel (st : Store) (t : CancelTask) : Store * CancelTask :=
  match t with
  | AtSelectReservation sid uid =>
      match select_reservation st sid uid with
      | None =>
          (st, CancelReturned (ErrorReply 404 "Reservation not found"))
      | Some reservation => (st, AtDelete sid uid reservation)
      end
  | AtDelete sid uid reservation =>
      (delete_reservation st (id reservation),
       AtSelectScreening sid uid reservation)
  | AtSelectScreening sid uid reservation =>
      match select_screening st sid with
      | Some screening => (st, AtFree sid uid reservation screening)
      | None => (st, CancelReturned ReservationCancelled)
      end
  | AtFree sid uid reservation screening =>
      (update_takenSeats st sid
         (List.filter (stays_taken reservation) (takenSeats screening)),
       CancelReturned ReservationCancelled)
  | CancelReturned r => (st, CancelReturned r)
  end.

Inductive Task : Type :=
| Reserving (t : ReserveTask)
| Cancelling (t : CancelTask).

Definition step_task (st : Store) (t : Task) : Store * Task :=
  match t with
  | Reserving t0 => let '(st1, t1) := step st t0 in (st1, Reserving t1)
  | Cancelling t0 => let '(st1, t1) := step_cancel st t0 in (st1, Cancelling t1)
  end.

Fixpoint interleave_tasks (st : Store) (ts : list Task) (sched : list nat)
  : Store * list Task :=
  match sched with
  | [] => (st, ts)
  | i :: sched' =>
      match ts !! i with
      | Some t =>
          let '(st1, t1) := step_task st t in
          interleave_tasks st1 (<[i := t1]> ts) sched'
      | None => interleave_tasks st ts sched'
      end
  end.

(** Settles the rows of a table of outcomes: each side of an equivalence is
    taken apart and closed by the facts at hand. *)
Ltac outcome :=
  split_and!;
  try (split; intros);
  intros;
  repeat match goal with
         | H : ex _ |- _ => destruct H
         | H : _ /\ _ |- _ => destruct H
         end;
  simplify_eq;
  try done;
  try (exfalso; unfold not in *; eauto; fail);
  eauto 10.

(** Runs the statements of the calls in flight that the schedule names. *)
Ltac run_tasks :=
  cbn [interleave_tasks lookup list_lookup insert list_insert
       step_task step_cancel step delete_reservation update_takenSeats
       screeningTable reservationTable].

(** A database for the examples: movie [m1] in auditorium [a1], the
    screening and the reservations of [store2]. *)
Definition db2 : Db := mkDb {[ "m1" ]} {[ "a1" ]} store2.

(** ** The conversions *)

Example String_12 : String_ 12 = "12".
Proof. reflexivity. Qed.

Example Number_letter : Number_ "A" = NaN.
Proof. reflexivity. Qed.

Example reserve_store0 :
  responses store0 [Reserve "s1" "u1" [mkBodySeat 1 2] "r1" 5;
                    Reserve "s1" "u2" [mkBodySeat 1 2] "r2" 6;
                    Cancel "s1" "u1"; Cancel "s1" "u1"]
  = [ReservationSuccessful "r1";
     ErrorReply 400 "Seat row 1 number 2 is already taken";
     ReservationCancelled;
     ErrorReply 404 "Reservation not found"].
Proof. reflexivity. Qed.

Example interleaved_store0 :
  interleave store0
    [AtSelect "s1" "u1" [seat12] "r1" 5; AtSelect "s1" "u2" [seat12] "r2" 6]
    [0; 1; 0; 1; 0; 1]%nat
  = (double_booked,
     [Returned (ReservationSuccessful "r1");
      Returned (ReservationSuccessful "r2")]).
Proof. reflexivity. Qed.

Lemma String_nonempty z : String_ z <> "".
Proof.
  unfold String_. destruct (Z.to_int z) as [d|d]; simpl; [|discriminate].
  destruct d; simpl; discriminate.
Qed.

Lemma to_int_not_nil z :
  Z.to_int z <> Decimal.Pos Decimal.Nil /\ Z.to_int z <> Decimal.Neg Decimal.Nil.
Proof.
  destruct z as [|p|p]; simpl; split; intros H; try discriminate H.
  all: injection H as H; by apply DecimalPos.Unsigned.to_uint_nonnil in H.
Qed.

(** Reading back a row that [String] wrote gives the number written. *)
Lemma Number_String z : Number_ (String_ z) = Num z.
Proof.
  destruct (to_int_not_nil z) as [Hp Hn].
  pose proof (NilZero.isi (Z.to_int z) Hp Hn) as Hisi.
  fold (String_ z) in Hisi.
  unfold Number_.
  destruct (String_ z) as [|a t] eqn:E; [by apply String_nonempty in E|].
  destruct (Ascii.eqb_spec a "+"%char) as [->|Hne].
  - cbn in Hisi. by destruct (NilEmpty.uint_of_string t).
  - assert (Hgo : match NilZero.int_of_string (String a t) with
                  | Some d => Num (Z.of_int d) | None => NaN end = Num z).
    { rewrite Hisi. by rewrite DecimalZ.of_to. }
    destruct a as [[] [] [] [] [] [] [] []]; try exact Hgo.
    by destruct Hne.
Qed.

Lemma String_inj z1 z2 : String_ z1 = String_ z2 -> z1 = z2.
Proof.
  intros H. apply (f_equal Number_) in H. rewrite !Number_String in H.
  by injection H.
Qed.

Lemma strict_eq_true a b :
  strict_eq a b = true <-> exists z, a = Num z /\ b = Num z.
Proof.
  destruct a as [|x], b as [|y]; simpl; split;
    try discriminate; try (by intros (z & ? & ?)).
  - intros H%Z.eqb_eq. subst. eauto.
  - intros (z & [= ->] & [= ->]). apply Z.eqb_refl.
Qed.

Lemma strict_eq_sym a b : strict_eq a b = strict_eq b a.
Proof. destruct a, b; simpl; auto using Z.eqb_sym. Qed.

(** ** The two seat comparisons *)

Lemma taken_by_true seat s :
  taken_by seat s = true <->
  Number_ (row s) = Num (body_row seat) /\ number s = body_number seat.
Proof.
  unfold taken_by. rewrite andb_true_iff, !strict_eq_true. split.
  - intros [(z & -> & [= ->]) (n & [= ->] & [= ->])]. done.
  - intros [-> ->]. split; eauto.
Qed.

Lemma taken_seat_in seat l :
  existsb (taken_by seat) l = true <-> seat_in seat l.
Proof.
  rewrite existsb_exists. unfold seat_in. split.
  - intros (s & Hin & H). exists s. rewrite list_elem_of_In.
    by apply taken_by_true in H.
  - intros (s & Hin & H). exists s. rewrite <- list_elem_of_In.
    split; [done|]. by apply taken_by_true.
Qed.

(** The check of [reserve] and the filter of [cancel] compare the same
    way. *)
Lemma same_seat_as_taken s seat : same_seat s (as_taken seat) = taken_by seat s.
Proof.
  unfold same_seat, taken_by. cbn [as_taken row number].
  by rewrite Number_String, strict_eq_sym, (strict_eq_sym (Num (number s))).
Qed.

(** On rows that [String] wrote, [same_seat] is equality of the (row,
    number) pairs. *)
Lemma same_seat_numeric seat rSeat :
  numeric_row seat -> numeric_row rSeat ->
  same_seat seat rSeat = true <-> seat_id seat = seat_id rSeat.
Proof.
  intros [z Hz] [y Hy]. unfold same_seat, seat_id.
  rewrite andb_true_iff, !strict_eq_true, Hz, Hy, !Number_String. split.
  - intros [(a & [= ->] & [= ->]) (b & [= Hb] & [= ->])]. by rewrite Hb.
  - intros [= ->%String_inj ->]. split; eauto.
Qed.

Lemma numeric_row_as_taken seat : numeric_row (as_taken seat).
Proof. by exists (body_row seat). Qed.

Lemma same_seat_refl_as_taken seat :
  same_seat (as_taken seat) (as_taken seat) = true.
Proof.
  apply same_seat_numeric; auto using numeric_row_as_taken.
Qed.

(** ** Store statements *)

Lemma has_id_true i r : has_id i r = true <-> id r = i.
Proof. apply String.eqb_eq. Qed.

Lemma for_screening_and_user_true sid uid r :
  for_screening_and_user sid uid r = true <->
  screeningId r = sid /\ userId r = uid.
Proof.
  unfold for_screening_and_user.
  by rewrite andb_true_iff, !String.eqb_eq.
Qed.

Lemma of_screening_true sid r : of_screening sid r = true <-> screeningId r = sid.
Proof. apply String.eqb_eq. Qed.

Lemma fresh_id_iff uuid (l : list Reservation) :
  existsb (has_id uuid) l = false <-> uuid ∉ id <$> l.
Proof.
  rewrite <- not_true_iff_false, existsb_exists, list_elem_of_fmap. split.
  - intros H (r & -> & Hr). apply H. exists r.
    by rewrite <- list_elem_of_In, has_id_true.
  - intros H (r & Hr & Hid). apply H. exists r.
    by rewrite list_elem_of_In, <- (proj1 (has_id_true _ _) Hid).
Qed.

Lemma insert_reservation_fresh st r :
  id r ∉ id <$> reservationTable st ->
  insert_reservation st r
  = Some (mkStore (screeningTable st) (reservationTable st ++ [r])).
Proof.
  intros H%fresh_id_iff. unfold insert_reservation. by rewrite H.
Qed.

Lemma insert_reservation_Some st r st' :
  insert_reservation st r = Some st' ->
  (id r ∉ id <$> reservationTable st)
  /\ st' = mkStore (screeningTable st) (reservationTable st ++ [r]).
Proof.
  unfold insert_reservation.
  destruct (existsb _ _) eqn:E; [done|].
  intros [= <-]. split; [by apply fresh_id_iff|done].
Qed.

Lemma set_takenSeats_same screening :
  set_takenSeats (takenSeats screening) screening = screening.
Proof. by destruct screening. Qed.

Lemma alter_set_takenSeats (m : gmap string Screening) sid screening v :
  m !! sid = Some screening ->
  alter (set_takenSeats v) sid m = <[sid := set_takenSeats v screening]> m.
Proof.
  intros H. apply map_eq. intros k. rewrite lookup_alter, lookup_insert.
  destruct (decide (sid = k)) as [<-|]; [by rewrite H|done].
Qed.

(** ** The first conflict *)

Lemma find_first {A} (f : A -> bool) (l : list A) :
  (exists x, x ∈ l /\ f x = true) ->
  exists before x after,
    l = before ++ x :: after
    /\ (forall y, y ∈ before -> f y = false)
    /\ f x = true
    /\ List.find f l = Some x.
Proof.
  induction l as [|a l IH]; intros (x & Hin & Hx).
  - by apply elem_of_nil in Hin.
  - destruct (f a) eqn:Ha.
    + exists [], a, l. simpl. rewrite Ha. repeat split; try done.
      intros y Hy. by apply elem_of_nil in Hy.
    + apply elem_of_cons in Hin as [->|Hin]; [congruence|].
      destruct IH as (before & x' & after & -> & Hb & Hx' & Hfind); [eauto|].
      exists (a :: before), x', after. simpl. rewrite Ha.
      repeat split; try done.
      intros y [->|Hy]%elem_of_cons; auto.
Qed.

Lemma first_conflict_None l seats0 :
  first_conflict l seats0 = None <->
  (forall seat, seat ∈ seats0 -> ~ seat_in seat l).
Proof.
  unfold first_conflict. split.
  - intros H seat Hin Hs%taken_seat_in.
    apply list_elem_of_In in Hin.
    by apply (find_none _ _ H) in Hin; congruence.
  - intros H. destruct (List.find _ _) as [seat|] eqn:E; [|done].
    apply find_some in E as [Hin Hs]. apply list_elem_of_In in Hin.
    apply taken_seat_in in Hs. by destruct (H seat).
Qed.

(** ** What [reserve] does *)

Lemma reserve_accepts st sid uid seats0 uuid now screening :
  screeningTable st !! sid = Some screening ->
  (forall seat, seat ∈ seats0 -> ~ seat_in seat (takenSeats screening)) ->
  uuid ∉ id <$> reservationTable st ->
  reserve st sid uid seats0 uuid now
  = (reserved st sid uid seats0 uuid now screening,
     ReservationSuccessful uuid).
Proof.
  intros Hs Hfree%first_conflict_None Hfresh.
  unfold reserve, select_screening. rewrite Hs. cbn zeta. rewrite Hfree.
  rewrite insert_reservation_fresh by done.
  unfold reserved, update_takenSeats. cbn.
  by rewrite (alter_set_takenSeats _ _ screening).
Qed.

Lemma reserve_succeeded st sid uid seats0 uuid now st' rid :
  reserve st sid uid seats0 uuid now = (st', ReservationSuccessful rid) ->
  exists screening,
    screeningTable st !! sid = Some screening
    /\ (forall seat, seat ∈ seats0 -> ~ seat_in seat (takenSeats screening))
    /\ (uuid ∉ id <$> reservationTable st)
    /\ rid = uuid
    /\ st' = reserved st sid uid seats0 uuid now screening.
Proof.
  unfold reserve, select_screening.
  destruct (screeningTable st !! sid) as [screening|] eqn:Hs; [|done].
  cbn zeta. destruct (first_conflict _ _) eqn:Hfree; [done|].
  destruct (insert_reservation _ _) as [st2|] eqn:Hins; [|done].
  intros [= <- <-]. apply insert_reservation_Some in Hins as [Hfresh ->].
  exists screening. rewrite first_conflict_None in Hfree.
  repeat split; try done.
  unfold reserved, update_takenSeats. cbn.
  by rewrite (alter_set_takenSeats _ _ screening).
Qed.

(** ** Safe seats *)

Lemma safe_seat_numeric s : safe_seat s -> numeric_row s.
Proof. intros [(z & _ & Hz) _]. by exists z. Qed.

Lemma holds_seat_in l seat : holds l seat -> seat_in seat l.
Proof.
  intros (s & Hs & Hrow & Hnum). exists s. split; [done|].
  split; [|done]. rewrite Hrow. apply Number_String.
Qed.

Lemma seat_in_holds l seat :
  (forall s, s ∈ l -> safe_seat s) -> seat_in seat l -> holds l seat.
Proof.
  intros Hsafe (s & Hs & Hrow & Hnum). exists s. split; [done|].
  split; [|done]. destruct (Hsafe s Hs) as [(z & _ & Hz) _].
  rewrite Hz in Hrow |- *. fold (String_ z) in Hrow.
  rewrite Number_String in Hrow. by injection Hrow as ->.
Qed.

Lemma none_held_free l (seats0 : list BodySeat) :
  (forall s, s ∈ l -> safe_seat s) ->
  (forall seat, seat ∈ seats0 -> ~ holds l seat) ->
  forall seat, seat ∈ seats0 -> ~ seat_in seat l.
Proof.
  intros Hsafe Hfree seat Hin Hs. apply (Hfree seat Hin).
  by apply seat_in_holds.
Qed.

(** ** Claims about [reserve] *)

(** C3.  A [reserve] on an existing screening whose request names a seat of
    the taken-seat set answers 400 with the message naming the first such
    seat of the request, by row and number, and leaves both tables as they
    were.  The stored seats have the numeral of a safe integer as row and a
    safe number, and the requested coordinates are safe: there a seat is
    taken when a stored seat has its row numeral and its number, and the
    message writes both as decimal numerals. *)
Theorem reserve_taken_seat_conflict st sid screening uid seats0 uuid now :
  screeningTable st !! sid = Some screening ->
  (forall s, s ∈ takenSeats screening -> safe_seat s) ->
  (forall seat, seat ∈ seats0 -> safe_request seat) ->
  (exists seat, seat ∈ seats0 /\ holds (takenSeats screening) seat) ->
  exists before seat after,
    seats0 = before ++ seat :: after
    /\ (forall x, x ∈ before -> ~ holds (takenSeats screening) x)
    /\ holds (takenSeats screening) seat
    /\ reserve st sid uid seats0 uuid now
       = (st, ErrorReply 400
                ("Seat row " ++ decimal (body_row seat) ++ " number "
                 ++ decimal (body_number seat)
                 ++ " is already taken")%string).
Proof.
  intros Hs Hrows _ (seat & Hin & Htaken%holds_seat_in).
  destruct (find_first (fun seat => existsb (taken_by seat) (takenSeats screening))
                       seats0)
    as (before & x & after & -> & Hb & Hx & Hfind).
  { exists seat. split; [done|]. by apply taken_seat_in. }
  exists before, x, after. repeat split.
  - intros y Hy Hy'%holds_seat_in%taken_seat_in. by rewrite (Hb y Hy) in Hy'.
  - by apply seat_in_holds, taken_seat_in.
  - unfold reserve, select_screening, first_conflict. rewrite Hs. cbn zeta.
    by rewrite Hfind.
Qed.

Lemma reserve_taken_seat_conflict_witness :
  (exists before seat after,
     [mkBodySeat 1 1; seat12; mkBodySeat 1 3] = before ++ seat :: after
     /\ (forall x, x ∈ before -> ~ holds [mkSeat "1" 2 false] x)
     /\ holds [mkSeat "1" 2 false] seat
     /\ reserve store1 "s1" "u2" [mkBodySeat 1 1; seat12; mkBodySeat 1 3]
                "r2" 6
        = (store1, ErrorReply 400
                     ("Seat row " ++ decimal (body_row seat) ++ " number "
                      ++ decimal (body_number seat)
                      ++ " is already taken")%string))
  /\ reserve store1 "s1" "u2" [mkBodySeat 1 1; seat12; mkBodySeat 1 3]
             "r2" 6
     = (store1, ErrorReply 400 "Seat row 1 number 2 is already taken").
Proof.
  split; [|reflexivity].
  apply (reserve_taken_seat_conflict store1 "s1"
           (set_takenSeats [mkSeat "1" 2 false] screening0) "u2"
           [mkBodySeat 1 1; seat12; mkBodySeat 1 3] "r2" 6).
  - reflexivity.
  - intros s ->%list_elem_of_singleton. split; [by exists 1|done].
  - intros seat Hin. rewrite !elem_of_cons, elem_of_nil in Hin.
    destruct Hin as [->|[->|[->|[]]]]; by split.
  - exists seat12. split.
    + apply list_elem_of_further, list_elem_of_here.
    + exists (mkSeat "1" 2 false). split; [apply list_elem_of_here|].
      split; reflexivity.
Defined.

(** C4.  A [reserve] with safe coordinates that answers with a reservation
    id found the screening with none of the requested seats taken; the
    screening now has the old taken-seat list followed by the requested
    seats, each with its row as a decimal numeral, its number and marked
    unavailable, and is otherwise as it was, as is every other screening;
    one reservation was inserted, which owns exactly those seats at the
    price of the screening, whatever their number, and the id answered is
    the id of that reservation. *)
Theorem reserve_success_effect st sid uid seats0 uuid now st' rid :
  (forall seat, seat ∈ seats0 -> safe_request seat) ->
  reserve st sid uid seats0 uuid now = (st', ReservationSuccessful rid) ->
  exists screening screening',
    screeningTable st !! sid = Some screening
    /\ (forall seat, seat ∈ seats0 -> ~ holds (takenSeats screening) seat)
    /\ screeningTable st' !! sid = Some screening'
    /\ takenSeats screening'
       = takenSeats screening
         ++ map (fun seat => mkSeat (decimal (body_row seat))
                                    (body_number seat) false) seats0
    /\ movieId screening' = movieId screening
    /\ auditoriumId screening' = auditoriumId screening
    /\ startTime screening' = startTime screening
    /\ endTime screening' = endTime screening
    /\ price screening' = price screening
    /\ (forall sid', sid' <> sid ->
          screeningTable st' !! sid' = screeningTable st !! sid')
    /\ reservationTable st'
       = reservationTable st
         ++ [mkReservation rid uid sid
               (map (fun seat => mkSeat (decimal (body_row seat))
                                        (body_number seat) false) seats0)
               (price screening) now]
    /\ rid = uuid.
Proof.
  intros _ (screening & Hs & Hfree & _ & -> & ->)%reserve_succeeded.
  exists screening, (set_takenSeats (takenSeats screening
                                      ++ map as_taken seats0) screening).
  split; [done|]. split.
  { intros seat Hin Hh%holds_seat_in. by apply (Hfree seat). }
  split; [cbn; apply lookup_insert_eq|].
  do 6 (split; [done|]). split; [|done].
  intros sid' Hne. cbn. by rewrite lookup_insert_ne.
Qed.

Lemma reserve_success_effect_witness :
  (exists screening screening',
     screeningTable store1 !! "s1" = Some screening
     /\ (forall seat, seat ∈ [mkBodySeat 1 3; mkBodySeat 2 3] ->
                      ~ holds (takenSeats screening) seat)
     /\ screeningTable
          (fst (reserve store1 "s1" "u2" [mkBodySeat 1 3; mkBodySeat 2 3]
                        "r2" 6)) !! "s1" = Some screening'
     /\ takenSeats screening'
        = takenSeats screening
          ++ map (fun seat => mkSeat (decimal (body_row seat))
                                     (body_number seat) false)
                 [mkBodySeat 1 3; mkBodySeat 2 3]
     /\ movieId screening' = movieId screening
     /\ auditoriumId screening' = auditoriumId screening
     /\ startTime screening' = startTime screening
     /\ endTime screening' = endTime screening
     /\ price screening' = price screening
     /\ (forall sid', sid' <> "s1" ->
           screeningTable
             (fst (reserve store1 "s1" "u2" [mkBodySeat 1 3; mkBodySeat 2 3]
                           "r2" 6)) !! sid'
           = screeningTable store1 !! sid')
     /\ reservationTable
          (fst (reserve store1 "s1" "u2" [mkBodySeat 1 3; mkBodySeat 2 3]
                        "r2" 6))
        = reservationTable store1
          ++ [mkReservation "r2" "u2" "s1"
                (map (fun seat => mkSeat (decimal (body_row seat))
                                         (body_number seat) false)
                     [mkBodySeat 1 3; mkBodySeat 2 3])
                (price screening) 6]
     /\ "r2" = "r2")
  /\ screeningTable
       (fst (reserve store1 "s1" "u2" [mkBodySeat 1 3; mkBodySeat 2 3]
                     "r2" 6)) !! "s1"
     = Some (mkScreening "m1" "a1" 0 7200 "12.50"
               [mkSeat "1" 2 false; mkSeat "1" 3 false; mkSeat "2" 3 false])
  /\ reservationTable
       (fst (reserve store1 "s1" "u2" [mkBodySeat 1 3; mkBodySeat 2 3]
                     "r2" 6))
     = [mkReservation "r1" "u1" "s1" [mkSeat "1" 2 false] "12.50" 5;
        mkReservation "r2" "u2" "s1"
          [mkSeat "1" 3 false; mkSeat "2" 3 false] "12.50" 6].
Proof.
  split; [|split; reflexivity].
  apply (reserve_success_effect store1 "s1" "u2"
           [mkBodySeat 1 3; mkBodySeat 2 3] "r2" 6).
  - intros seat Hin. rewrite !elem_of_cons, elem_of_nil in Hin.
    destruct Hin as [->|[->|[]]]; by split.
  - reflexivity.
Defined.

(** C9.  A [reserve] with an empty seat list on an existing screening is
    not rejected: given a UUID new to the table, it leaves the screening
    table as it was, inserts a reservation that holds no seat and costs the
    full price of the screening, and answers with its id. *)
Theorem reserve_no_seats st sid screening uid uuid now :
  screeningTable st !! sid = Some screening ->
  uuid ∉ id <$> reservationTable st ->
  reserve st sid uid [] uuid now
  = (mkStore (screeningTable st)
             (reservationTable st
              ++ [mkReservation uuid uid sid [] (price screening) now]),
     ReservationSuccessful uuid).
Proof.
  intros Hs Hfresh.
  rewrite (reserve_accepts st sid uid [] uuid now screening Hs); [|by intros ? []%elem_of_nil|done].
  unfold reserved. cbn [map]. rewrite app_nil_r, set_takenSeats_same.
  by rewrite insert_id.
Qed.

Lemma reserve_no_seats_witness :
  reserve store1 "s1" "u1" [] "r2" 6
  = (mkStore (screeningTable store1)
             (reservationTable store1
              ++ [mkReservation "r2" "u1" "s1" []
                    (price (set_takenSeats [mkSeat "1" 2 false] screening0))
                    6]),
     ReservationSuccessful "r2").
Proof.
  apply (reserve_no_seats store1 "s1"
           (set_takenSeats [mkSeat "1" 2 false] screening0) "u1" "r2" 6).
  - reflexivity.
  - apply fresh_id_iff. reflexivity.
Defined.



(** ** Claims about [cancel] *)

(** C7.  A [cancel] by a user who holds no reservation for the screening
    answers 404, reservation not found, and leaves both tables as they
    were. *)
Theorem cancel_without_reservation st sid uid :
  (forall r, r ∈ reservationTable st ->
             ~ (screeningId r = sid /\ userId r = uid)) ->
  cancel st sid uid = (st, ErrorReply 404 "Reservation not found").
Proof.
  intros Hnone. unfold cancel, select_reservation.
  destruct (List.find _ _) as [r|] eqn:E; [|done].
  apply find_some in E as [Hin Hr%for_screening_and_user_true].
  apply list_elem_of_In in Hin. by destruct (Hnone r).
Qed.

Lemma cancel_without_reservation_witness :
  cancel store1 "s1" "u2" = (store1, ErrorReply 404 "Reservation not found").
Proof.
  apply (cancel_without_reservation store1 "s1" "u2").
  intros r Hr [_ Hu]. apply list_elem_of_singleton in Hr. subst r.
  discriminate Hu.
Defined.

Lemma same_seat_true seat rSeat :
  same_seat seat rSeat = true <-> same_row_and_number seat rSeat.
Proof.
  unfold same_seat, same_row_and_number.
  rewrite andb_true_iff, !strict_eq_true. split.
  - intros [(z & Hr & Hs) (n & [= ->] & [= ->])]. eauto.
  - intros (z & Hr & Hs & Hn). rewrite Hn. split; eauto.
Qed.

Lemma filter_all {A} (f : A -> bool) (l : list A) :
  (forall x, x ∈ l -> f x = true) -> List.filter f l = l.
Proof.
  induction l as [|a l IH]; intros H; [done|]. simpl.
  rewrite (H a) by apply list_elem_of_here.
  f_equal. apply IH. intros x Hx. apply H. by apply list_elem_of_further.
Qed.

Lemma filter_none {A} (f : A -> bool) (l : list A) :
  (forall x, x ∈ l -> f x = false) -> List.filter f l = [].
Proof.
  induction l as [|a l IH]; intros H; [done|]. simpl.
  rewrite (H a) by apply list_elem_of_here.
  apply IH. intros x Hx. apply H. by apply list_elem_of_further.
Qed.

Lemma elem_of_filter_bool {A} (f : A -> bool) (l : list A) x :
  x ∈ List.filter f l <-> x ∈ l /\ f x = true.
Proof. by rewrite !list_elem_of_In, filter_In. Qed.

(** Under the primary key, deleting by id removes one row. *)
Lemma delete_unique before (r : Reservation) after :
  NoDup (id <$> before ++ r :: after) ->
  List.filter (fun x => negb (has_id (id r) x)) (before ++ r :: after)
  = before ++ after.
Proof.
  rewrite fmap_app, fmap_cons. intros Hnd.
  apply NoDup_app in Hnd as (_ & Hba & Hra).
  apply NoDup_cons in Hra as [Hr _].
  assert (Hother : forall (l : list Reservation) x, id r ∉ id <$> l -> x ∈ l ->
                               negb (has_id (id r) x) = true).
  { intros l x Hl Hx. apply negb_true_iff, not_true_iff_false.
    intros Hid%has_id_true. apply Hl. rewrite <- Hid.
    by apply list_elem_of_fmap_2. }
  rewrite List.filter_app. cbn [List.filter].
  unfold has_id at 2. rewrite String.eqb_refl. cbn [negb].
  rewrite (filter_all _ before), (filter_all _ after); [done|..].
  - intros x Hx. by apply (Hother after).
  - intros x Hx. apply (Hother before); [|done].
    intros Hin. apply (Hba _ Hin), list_elem_of_here.
Qed.

Lemma select_reservation_first st sid uid r0 :
  r0 ∈ reservationTable st -> screeningId r0 = sid -> userId r0 = uid ->
  exists before reservation after,
    reservationTable st = before ++ reservation :: after
    /\ screeningId reservation = sid /\ userId reservation = uid
    /\ (forall r, r ∈ before -> ~ (screeningId r = sid /\ userId r = uid))
    /\ select_reservation st sid uid = Some reservation.
Proof.
  intros Hin Hs Hu.
  destruct (find_first (for_screening_and_user sid uid) (reservationTable st))
    as (before & r & after & Hsplit & Hb & Hr & Hfind).
  { exists r0. split; [done|]. by apply for_screening_and_user_true. }
  apply for_screening_and_user_true in Hr as [? ?].
  exists before, r, after. repeat split; try done.
  intros x Hx Hx'%for_screening_and_user_true. by rewrite (Hb x Hx) in Hx'.
Qed.

(** The tables after a [cancel] that found [reservation]. *)
Lemma cancel_found st sid uid reservation :
  select_reservation st sid uid = Some reservation ->
  exists st',
    cancel st sid uid = (st', ReservationCancelled)
    /\ reservationTable st'
       = List.filter (fun r => negb (has_id (id reservation) r))
                     (reservationTable st)
    /\ (forall sid', sid' <> sid ->
                     screeningTable st' !! sid' = screeningTable st !! sid')
    /\ (screeningTable st !! sid = None -> screeningTable st' !! sid = None)
    /\ (forall screening,
          screeningTable st !! sid = Some screening ->
          screeningTable st' !! sid
          = Some (set_takenSeats
                    (List.filter (stays_taken reservation)
                                 (takenSeats screening))
                    screening)).
Proof.
  intros Hsel. unfold cancel. rewrite Hsel. cbn zeta.
  unfold select_screening. cbn [delete_reservation screeningTable].
  destruct (screeningTable st !! sid) as [screening|] eqn:Hs.
  - eexists. split; [done|]. cbn. repeat split.
    + intros sid' Hne. by rewrite lookup_alter_ne.
    + done.
    + intros ? [= <-]. by rewrite lookup_alter_eq, Hs.
  - eexists. split; [done|]. cbn. repeat split; done.
Qed.

Lemma stays_taken_true reservation seat :
  stays_taken reservation seat = true <->
  ~ exists rSeat, rSeat ∈ seats reservation /\ same_row_and_number seat rSeat.
Proof.
  unfold stays_taken.
  rewrite negb_true_iff, <- not_true_iff_false, existsb_exists.
  split; intros H (rSeat & Hin & Hsame); apply H; exists rSeat.
  - by rewrite <- list_elem_of_In, same_seat_true.
  - by rewrite list_elem_of_In, <- same_seat_true.
Qed.

(** On rows that are numerals of safe integers the filter of [cancel]
    keeps the seats whose (row, number) pair is that of no seat of the
    reservation. *)
Lemma stays_taken_safe reservation seat :
  safe_seat seat ->
  (forall s, s ∈ seats reservation -> safe_seat s) ->
  stays_taken reservation seat = true <->
  seat_id seat ∉ seat_id <$> seats reservation.
Proof.
  intros Hseat Hres. rewrite stays_taken_true, list_elem_of_fmap.
  split; intros Hno (rSeat & H1 & H2); apply Hno; exists rSeat.
  - split; [done|].
    apply same_seat_true, same_seat_numeric; auto using safe_seat_numeric.
  - split; [|done].
    apply same_seat_true, same_seat_numeric in H2;
      auto using safe_seat_numeric.
Qed.

Lemma filter_stays_taken reservation (l : list Seat) :
  (forall s, s ∈ l -> safe_seat s) ->
  (forall s, s ∈ seats reservation -> safe_seat s) ->
  List.filter (stays_taken reservation) l
  = filter (fun seat => seat_id seat ∉ seat_id <$> seats reservation) l.
Proof.
  intros Hl Hres. induction l as [|a l IH]; [done|].
  assert (Ha : safe_seat a) by apply Hl, list_elem_of_here.
  assert (IH' : List.filter (stays_taken reservation) l
                = filter (fun seat => seat_id seat
                                      ∉ seat_id <$> seats reservation) l).
  { apply IH. intros x Hx. by apply Hl, list_elem_of_further. }
  cbn [List.filter]. rewrite filter_cons.
  destruct (stays_taken reservation a) eqn:E.
  - apply (stays_taken_safe reservation a Ha Hres) in E.
    rewrite decide_True by done. by rewrite IH'.
  - rewrite decide_False; [done|].
    intros H%(stays_taken_safe reservation a Ha Hres). congruence.
Qed.

(** C5, as the code has it.  The filter of [cancel] compares rows as the
    numbers they read as.  On a table that satisfies its primary key, where
    the taken seats and the seats of the user's reservations have the numeral
    of a safe integer as row and a safe number, as [reserve] writes them for
    a safe request, a [cancel] by a user who
    holds a reservation for the screening deletes one such reservation and
    no other row, leaves the other screenings and the other columns of this
    one alone, and keeps of the taken-seat list, in their order, the seats
    whose (row, number) pair is that of no seat of that reservation: a
    taken seat is removed if and only if its (row, number) pair is that of
    one of them. *)
Theorem cancel_effect st sid uid r0 :
  unique_ids st ->
  (forall screening s,
     screeningTable st !! sid = Some screening ->
     s ∈ takenSeats screening -> safe_seat s) ->
  (forall r s,
     r ∈ reservationTable st -> screeningId r = sid -> userId r = uid ->
     s ∈ seats r -> safe_seat s) ->
  r0 ∈ reservationTable st -> screeningId r0 = sid -> userId r0 = uid ->
  exists st' before reservation after,
    cancel st sid uid = (st', ReservationCancelled)
    /\ reservationTable st = before ++ reservation :: after
    /\ screeningId reservation = sid /\ userId reservation = uid
    /\ reservationTable st' = before ++ after
    /\ (forall sid', sid' <> sid ->
                     screeningTable st' !! sid' = screeningTable st !! sid')
    /\ (forall screening,
          screeningTable st !! sid = Some screening ->
          exists screening',
            screeningTable st' !! sid = Some screening'
            /\ takenSeats screening'
               = filter (fun seat => seat_id seat
                                     ∉ seat_id <$> seats reservation)
                        (takenSeats screening)
            /\ movieId screening' = movieId screening
            /\ auditoriumId screening' = auditoriumId screening
            /\ startTime screening' = startTime screening
            /\ endTime screening' = endTime screening
            /\ price screening' = price screening
            /\ (forall seat,
                  seat ∈ takenSeats screening' <->
                  seat ∈ takenSeats screening
                  /\ seat_id seat ∉ seat_id <$> seats reservation)).
Proof.
  intros Hpk Htaken Hseats Hin Hs Hu.
  destruct (select_reservation_first st sid uid r0 Hin Hs Hu)
    as (before & r & after & Hsplit & Hrs & Hru & _ & Hsel).
  destruct (cancel_found st sid uid r Hsel)
    as (st' & Hc & Hres & Hother & _ & Hscr).
  assert (Hr : r ∈ reservationTable st).
  { rewrite Hsplit. apply elem_of_app. right. apply list_elem_of_here. }
  exists st', before, r, after. repeat split; try done.
  - rewrite Hres, Hsplit. apply delete_unique.
    unfold unique_ids in Hpk. by rewrite Hsplit in Hpk.
  - intros screening Hlook.
    assert (Hf : List.filter (stays_taken r) (takenSeats screening)
                 = filter (fun seat => seat_id seat ∉ seat_id <$> seats r)
                          (takenSeats screening)).
    { apply filter_stays_taken.
      - intros s Hs'. by apply (Htaken screening s).
      - intros s Hs'. by apply (Hseats r s). }
    eexists. split; [by apply Hscr|].
    cbn [takenSeats set_takenSeats movieId auditoriumId startTime endTime
         price].
    do 6 (split; [done|]). intros seat.
    rewrite elem_of_filter_bool. split; intros [Ht Hno]; (split; [done|]).
    + apply (stays_taken_safe r seat);
        [by apply (Htaken screening seat)| |done].
      intros s Hs'. by apply (Hseats r s).
    + apply (stays_taken_safe r seat);
        [by apply (Htaken screening seat)| |done].
      intros s Hs'. by apply (Hseats r s).
Qed.

Lemma store2_safe_seats s :
  s ∈ [mkSeat "1" 2 false; mkSeat "1" 3 false; mkSeat "2" 3 false] ->
  safe_seat s.
Proof.
  intros Hs. rewrite !elem_of_cons, elem_of_nil in Hs.
  destruct Hs as [->|[->|[->|[]]]]; (split; [|done]);
    [exists 1|exists 1|exists 2]; by split.
Qed.

Lemma cancel_effect_witness :
  (exists st' before reservation after,
     cancel store2 "s1" "u2" = (st', ReservationCancelled)
     /\ reservationTable store2 = before ++ reservation :: after
     /\ screeningId reservation = "s1" /\ userId reservation = "u2"
     /\ reservationTable st' = before ++ after
     /\ (forall sid', sid' <> "s1" ->
           screeningTable st' !! sid' = screeningTable store2 !! sid')
     /\ (forall screening,
           screeningTable store2 !! "s1" = Some screening ->
           exists screening',
             screeningTable st' !! "s1" = Some screening'
             /\ takenSeats screening'
                = filter (fun seat => seat_id seat
                                      ∉ seat_id <$> seats reservation)
                         (takenSeats screening)
             /\ movieId screening' = movieId screening
             /\ auditoriumId screening' = auditoriumId screening
             /\ startTime screening' = startTime screening
             /\ endTime screening' = endTime screening
             /\ price screening' = price screening
             /\ (forall seat,
                   seat ∈ takenSeats screening' <->
                   seat ∈ takenSeats screening
                   /\ seat_id seat ∉ seat_id <$> seats reservation)))
  /\ screeningTable (fst (cancel store2 "s1" "u2")) !! "s1"
     = Some (mkScreening "m1" "a1" 0 7200 "12.50" [mkSeat "1" 2 false])
  /\ reservationTable (fst (cancel store2 "s1" "u2"))
     = [mkReservation "r1" "u1" "s1" [mkSeat "1" 2 false] "12.50" 5].
Proof.
  split; [|split; reflexivity].
  apply (cancel_effect store2 "s1" "u2"
           (mkReservation "r2" "u2" "s1"
              [mkSeat "1" 3 false; mkSeat "2" 3 false] "12.50" 6)).
  - apply (bool_decide_unpack _). vm_compute. exact I.
  - intros screening s Hs. cbn in Hs. injection Hs as <-.
    apply store2_safe_seats.
  - intros r s Hr _ _ Hs. apply store2_safe_seats.
    cbn in Hr. rewrite !elem_of_cons, elem_of_nil in Hr.
    destruct Hr as [->|[->|[]]]; cbn in Hs;
      rewrite ?elem_of_cons in *; tauto.
  - apply list_elem_of_further, list_elem_of_here.
  - reflexivity.
  - reflexivity.
Defined.

(** C5, as the claim has it, fails: rows are compared as numbers, so a
    taken seat whose row is a letter has the (row, number) pair of the
    reservation's seat and yet is not removed when the reservation is
    cancelled. *)
Lemma cancel_keeps_letter_row :
  select_reservation store_letter "s1" "u1"
  = Some (mkReservation "r1" "u1" "s1" [mkSeat "A" 1 false] "12.50" 5)
  /\ screeningTable store_letter !! "s1"
     = Some (mkScreening "m1" "a1" 0 7200 "12.50" [mkSeat "A" 1 false])
  /\ seat_id (mkSeat "A" 1 false)
     ∈ seat_id <$> [mkSeat "A" 1 false]
  /\ snd (cancel store_letter "s1" "u1") = ReservationCancelled
  /\ reservationTable (fst (cancel store_letter "s1" "u1")) = []
  /\ screeningTable (fst (cancel store_letter "s1" "u1")) !! "s1"
     = Some (mkScreening "m1" "a1" 0 7200 "12.50" [mkSeat "A" 1 false]).
Proof.
  repeat split; try reflexivity. apply list_elem_of_here.
Qed.

Example cancel_store2 :
  exists st', cancel store2 "s1" "u2" = (st', ReservationCancelled)
    /\ takenSeats <$> screeningTable st' !! "s1" = Some [mkSeat "1" 2 false]
    /\ reservationTable st' = reservationTable store1.
Proof. eexists. split; [reflexivity|]. split; reflexivity. Qed.

(** C6.  A [reserve] that succeeds, followed at once by the [cancel] of the
    same user on the same screening, when that [cancel] finds the
    reservation just made, gives back the store as it was before the
    [reserve]: the taken-seat list of the screening, and every other row, is
    exactly what it was. *)
Theorem reserve_then_cancel st sid uid seats0 uuid now st1 rid :
  reserve st sid uid seats0 uuid now = (st1, ReservationSuccessful rid) ->
  id <$> select_reservation st1 sid uid = Some rid ->
  cancel st1 sid uid = (st, ReservationCancelled).
Proof.
  intros (screening & Hs & Hfree & Hfresh & -> & ->)%reserve_succeeded Hsel.
  destruct (select_reservation _ sid uid) as [r|] eqn:Hr; [|done].
  injection Hsel as Hid.
  set (new := mkReservation uuid uid sid (map as_taken seats0)
                            (price screening) now).
  assert (r = new) as ->.
  { unfold select_reservation in Hr. apply find_some in Hr as [Hin _].
    cbn in Hin. apply in_app_or in Hin as [Hin|[<-|[]]]; [|done].
    destruct Hfresh. rewrite <- Hid.
    by apply list_elem_of_fmap_2, list_elem_of_In. }
  destruct (cancel_found _ sid uid new Hr)
    as (st2 & -> & Hres & Hother & _ & Hscr).
  f_equal. destruct st as [tbl rs], st2 as [tbl2 rs2]. cbn in *. f_equal.
  - apply map_eq. intros k. destruct (decide (k = sid)) as [->|Hne].
    + rewrite (Hscr _ (lookup_insert_eq _ _ _)), Hs. f_equal.
      cbn [takenSeats set_takenSeats]. rewrite List.filter_app.
      rewrite filter_all, filter_none, app_nil_r.
      * by destruct screening.
      * intros s (b & -> & Hb)%list_elem_of_fmap.
        apply negb_false_iff, existsb_exists. exists (as_taken b).
        split; [|apply same_seat_refl_as_taken].
        by apply in_map, list_elem_of_In.
      * intros s Hin. apply stays_taken_true.
        intros (rSeat & (b & -> & Hb)%list_elem_of_fmap & Hsame).
        apply same_seat_true in Hsame. rewrite same_seat_as_taken in Hsame.
        apply (Hfree b Hb). exists s. by apply taken_by_true in Hsame.
    + by rewrite (Hother k Hne), lookup_insert_ne.
  - rewrite Hres, List.filter_app. cbn [List.filter new id].
    unfold has_id at 2. cbn [id]. rewrite String.eqb_refl. cbn.
    rewrite app_nil_r. apply filter_all. intros x Hx.
    apply negb_true_iff, not_true_iff_false. intros Hx'%has_id_true.
    apply Hfresh. rewrite <- Hx'. by apply list_elem_of_fmap_2.
Qed.

Lemma reserve_then_cancel_witness :
  cancel (fst (reserve store1 "s1" "u2" [mkBodySeat 1 3; mkBodySeat 2 3]
                       "r2" 6)) "s1" "u2"
  = (store1, ReservationCancelled).
Proof.
  apply (reserve_then_cancel store1 "s1" "u2"
           [mkBodySeat 1 3; mkBodySeat 2 3] "r2" 6 _ "r2").
  - reflexivity.
  - reflexivity.
Defined.

(** The [cancel] that follows finds the new reservation when the user held
    none for the screening before. *)
Lemma select_after_reserve st sid uid seats0 uuid now st1 rid :
  reserve st sid uid seats0 uuid now = (st1, ReservationSuccessful rid) ->
  held st sid uid = 0%nat ->
  id <$> select_reservation st1 sid uid = Some rid.
Proof.
  intros (screening & _ & _ & _ & -> & ->)%reserve_succeeded Hheld.
  unfold held in Hheld. apply length_zero_iff_nil in Hheld.
  unfold select_reservation, reserved. cbn [reservationTable].
  assert (Hnone : List.find (for_screening_and_user sid uid)
                            (reservationTable st) = None).
  { destruct (List.find _ _) as [r|] eqn:E; [|done].
    apply find_some in E. apply filter_In in E. rewrite Hheld in E.
    by destruct E. }
  induction (reservationTable st) as [|a l IH].
  - cbn. unfold for_screening_and_user. cbn. by rewrite !String.eqb_refl.
  - cbn in *. destruct (for_screening_and_user sid uid a); [done|].
    apply IH; [|done]. by destruct (List.filter _ l).
Qed.

(** ** Reservations per user and screening *)

(** C8, as the code has it.  Neither the schema nor [reserve] bounds the
    reservations of a user for a screening: on a table that satisfies its
    primary key, a [reserve] that succeeds adds one reservation to those the
    user holds for the screening, however many these are, and the ids stay
    distinct. *)
Theorem reserve_adds_reservation st sid uid seats0 uuid now st' rid :
  unique_ids st ->
  reserve st sid uid seats0 uuid now = (st', ReservationSuccessful rid) ->
  held st' sid uid = S (held st sid uid) /\ unique_ids st'.
Proof.
  intros Hpk (screening & _ & _ & Hfresh & -> & ->)%reserve_succeeded.
  unfold held, unique_ids, reserved. cbn [reservationTable]. split.
  - rewrite List.filter_app, length_app. cbn [List.filter].
    unfold for_screening_and_user at 2. cbn.
    rewrite !String.eqb_refl. cbn. lia.
  - rewrite fmap_app. apply NoDup_app. repeat split; [done| |].
    + intros x Hx [->|[]%elem_of_nil]%elem_of_cons. by apply Hfresh.
    + cbn. apply NoDup_singleton.
Qed.

Lemma reserve_adds_reservation_witness :
  held (fst (reserve store1 "s1" "u1" [mkBodySeat 1 3] "r2" 6)) "s1" "u1"
  = S (held store1 "s1" "u1")
  /\ unique_ids (fst (reserve store1 "s1" "u1" [mkBodySeat 1 3] "r2" 6)).
Proof.
  apply (reserve_adds_reservation store1 "s1" "u1" [mkBodySeat 1 3] "r2" 6
                                  _ "r2").
  - apply (bool_decide_unpack _). vm_compute. exact I.
  - reflexivity.
Defined.

(** C8, as the claim has it, fails: the same user reserves two seats of one
    screening in two calls and holds two reservations for it. *)
Lemma second_reservation_for_same_user :
  at_most_one_per_user store0
  /\ responses store0 [Reserve "s1" "u1" [mkBodySeat 1 1] "r1" 5;
                       Reserve "s1" "u1" [mkBodySeat 1 2] "r2" 6]
     = [ReservationSuccessful "r1"; ReservationSuccessful "r2"]
  /\ ~ at_most_one_per_user
         (final store0 [Reserve "s1" "u1" [mkBodySeat 1 1] "r1" 5;
                        Reserve "s1" "u1" [mkBodySeat 1 2] "r2" 6]).
Proof.
  split; [|split].
  - intros sid uid. cbn. lia.
  - reflexivity.
  - intros H. specialize (H "s1" "u1"). vm_compute in H. lia.
Qed.

(** ** Calls in flight and calls in turn *)

(** A call that runs its three statements with no other call in between
    is [reserve]. *)
Lemma reserve_in_three_steps st sid uid seats0 uuid now :
  interleave st [AtSelect sid uid seats0 uuid now] [0; 0; 0]%nat
  = (fst (reserve st sid uid seats0 uuid now),
     [Returned (snd (reserve st sid uid seats0 uuid now))]).
Proof.
  unfold reserve. cbn [interleave lookup list_lookup step].
  destruct (select_screening st sid) as [screening|]; [|done].
  cbn zeta. destruct (first_conflict _ _); [done|].
  cbn [interleave lookup list_lookup step insert list_insert].
  by destruct (insert_reservation _ _).
Qed.

(** Once the seat is taken, every further request for it is refused and
    changes nothing. *)
Lemma requests_refused st sid screening seat cs :
  screeningTable st !! sid = Some screening ->
  seat_in seat (takenSeats screening) ->
  Forall (requests sid seat) cs ->
  run st cs
  = (st, replicate (length cs) (ErrorReply 400 (already_taken seat))).
Proof.
  intros Hs Htaken%taken_seat_in. induction 1 as [|c cs Hc _ IH]; [done|].
  destruct c as [sid' uid seats0 uuid now|]; [|done].
  destruct Hc as [-> ->]. cbn [run call].
  unfold reserve, select_screening, first_conflict. rewrite Hs.
  cbn [List.find]. rewrite Htaken.
  fold (run st cs). by rewrite IH.
Qed.

(** The first of the calls in turn wins the seat. *)
Lemma first_request_wins st sid screening seat uid uuid now cs :
  screeningTable st !! sid = Some screening ->
  ~ seat_in seat (takenSeats screening) ->
  uuid ∉ id <$> reservationTable st ->
  Forall (requests sid seat) cs ->
  run st (Reserve sid uid [seat] uuid now :: cs)
  = (reserved st sid uid [seat] uuid now screening,
     ReservationSuccessful uuid
     :: replicate (length cs) (ErrorReply 400 (already_taken seat))).
Proof.
  intros Hs Hfree Hnew Hcs. cbn [run call].
  rewrite (reserve_accepts st sid uid [seat] uuid now screening); try done.
  - erewrite requests_refused; [done| | |exact Hcs].
    + cbn. apply lookup_insert_eq.
    + cbn [takenSeats set_takenSeats]. apply taken_seat_in.
      rewrite existsb_app. apply orb_true_iff. right. cbn.
      by rewrite <- same_seat_as_taken, same_seat_refl_as_taken.
  - by intros x ->%list_elem_of_singleton.
Qed.

(** C2, as the code has it.  The handler holds no lock and opens no
    transaction, so the guarantee is for calls that run in turn: of one or
    more [reserve] calls for the same single free seat of a screening, each
    with a new UUID and each finished before the next starts, the first
    succeeds and every other one is refused with the 400 answer that names
    the seat; the seat is appended once to the taken seats and one
    reservation, of the first caller, holds it.  The stored seats have the
    numeral of a safe integer as row and a safe number, and the seat has
    safe coordinates. *)
Theorem reserve_same_seat_in_turn st sid screening seat c cs :
  screeningTable st !! sid = Some screening ->
  (forall s, s ∈ takenSeats screening -> safe_seat s) ->
  safe_request seat ->
  ~ holds (takenSeats screening) seat ->
  Forall (requests sid seat) (c :: cs) ->
  fresh_uuids st (c :: cs) = true ->
  exists uid uuid now,
    c = Reserve sid uid [seat] uuid now
    /\ responses st (c :: cs)
       = ReservationSuccessful uuid
         :: replicate (length cs)
              (ErrorReply 400
                 ("Seat row " ++ decimal (body_row seat) ++ " number "
                  ++ decimal (body_number seat)
                  ++ " is already taken")%string)
    /\ takenSeats <$> screeningTable (final st (c :: cs)) !! sid
       = Some (takenSeats screening
               ++ [mkSeat (decimal (body_row seat)) (body_number seat)
                          false])
    /\ reservationTable (final st (c :: cs))
       = reservationTable st
         ++ [mkReservation uuid uid sid
               [mkSeat (decimal (body_row seat)) (body_number seat) false]
               (price screening) now].
Proof.
  intros Hs Hrows _ Hfree Hreq Hfresh.
  apply Forall_cons in Hreq as [Hc Hcs].
  destruct c as [sid' uid seats0 uuid now|]; [|done].
  destruct Hc as [-> ->]. exists uid, uuid, now. split; [done|].
  cbn [fresh_uuids] in Hfresh. apply andb_true_iff in Hfresh as [Hnew _].
  apply negb_true_iff, fresh_id_iff in Hnew.
  unfold responses, final.
  rewrite (first_request_wins st sid screening seat uid uuid now cs);
    try done.
  - cbn [fst snd reserved screeningTable reservationTable].
    split; [done|]. split; [|done]. by rewrite lookup_insert_eq.
  - intros Hin. by apply Hfree, seat_in_holds.
Qed.

Lemma reserve_same_seat_in_turn_witness :
  (exists uid uuid now,
     Reserve "s1" "u2" [mkBodySeat 1 3] "r2" 6
     = Reserve "s1" uid [mkBodySeat 1 3] uuid now
     /\ responses store1 [Reserve "s1" "u2" [mkBodySeat 1 3] "r2" 6;
                          Reserve "s1" "u3" [mkBodySeat 1 3] "r3" 7;
                          Reserve "s1" "u1" [mkBodySeat 1 3] "r4" 8]
        = ReservationSuccessful uuid
          :: replicate 2
               (ErrorReply 400
                  ("Seat row " ++ decimal 1 ++ " number " ++ decimal 3
                   ++ " is already taken")%string)
     /\ takenSeats
          <$> screeningTable
                (final store1
                   [Reserve "s1" "u2" [mkBodySeat 1 3] "r2" 6;
                    Reserve "s1" "u3" [mkBodySeat 1 3] "r3" 7;
                    Reserve "s1" "u1" [mkBodySeat 1 3] "r4" 8]) !! "s1"
        = Some ([mkSeat "1" 2 false]
                ++ [mkSeat (decimal 1) 3 false])
     /\ reservationTable
          (final store1
             [Reserve "s1" "u2" [mkBodySeat 1 3] "r2" 6;
              Reserve "s1" "u3" [mkBodySeat 1 3] "r3" 7;
              Reserve "s1" "u1" [mkBodySeat 1 3] "r4" 8])
        = reservationTable store1
          ++ [mkReservation uuid uid "s1" [mkSeat (decimal 1) 3 false]
                            "12.50" now])
  /\ responses store1 [Reserve "s1" "u2" [mkBodySeat 1 3] "r2" 6;
                       Reserve "s1" "u3" [mkBodySeat 1 3] "r3" 7;
                       Reserve "s1" "u1" [mkBodySeat 1 3] "r4" 8]
     = [ReservationSuccessful "r2";
        ErrorReply 400 "Seat row 1 number 3 is already taken";
        ErrorReply 400 "Seat row 1 number 3 is already taken"].
Proof.
  split; [|reflexivity].
  apply (reserve_same_seat_in_turn store1 "s1"
           (set_takenSeats [mkSeat "1" 2 false] screening0)
           (mkBodySeat 1 3)
           (Reserve "s1" "u2" [mkBodySeat 1 3] "r2" 6)
           [Reserve "s1" "u3" [mkBodySeat 1 3] "r3" 7;
            Reserve "s1" "u1" [mkBodySeat 1 3] "r4" 8]).
  - reflexivity.
  - intros s ->%list_elem_of_singleton. split; [by exists 1|done].
  - by split.
  - intros (s & ->%list_elem_of_singleton & _ & Hnum). discriminate Hnum.
  - repeat constructor.
  - reflexivity.
Defined.

(** C2, as the claim has it, fails: two calls in flight for the same free
    seat both read the screening before either writes it; both return a
    reservation id, both reservations hold the seat, and the second write of
    the taken-seat list overwrites the first. *)
Lemma concurrent_double_booking :
  screeningTable store0 !! "s1" = Some screening0
  /\ ~ seat_in seat12 (takenSeats screening0)
  /\ interleave store0
       [AtSelect "s1" "u1" [seat12] "r1" 5;
        AtSelect "s1" "u2" [seat12] "r2" 6]
       [0; 1; 0; 1; 0; 1]%nat
     = (double_booked,
        [Returned (ReservationSuccessful "r1");
         Returned (ReservationSuccessful "r2")])
  /\ length (List.filter succeeded
               (snd (interleave store0
                       [AtSelect "s1" "u1" [seat12] "r1" 5;
                        AtSelect "s1" "u2" [seat12] "r2" 6]
                       [0; 1; 0; 1; 0; 1]%nat))) = 2%nat.
Proof.
  split; [reflexivity|]. split; [|split; reflexivity].
  intros (s & Hs & _). by apply elem_of_nil in Hs.
Qed.

(** The same two calls in turn: the second is refused. *)
Example in_turn_store0 :
  interleave store0
    [AtSelect "s1" "u1" [seat12] "r1" 5; AtSelect "s1" "u2" [seat12] "r2" 6]
    [0; 0; 0; 1; 1; 1]%nat
  = (store1,
     [Returned (ReservationSuccessful "r1");
      Returned (ErrorReply 400 "Seat row 1 number 2 is already taken")]).
Proof. reflexivity. Qed.

Lemma interleave_app sched1 : forall st ts sched2,
  interleave st ts (sched1 ++ sched2)
  = interleave (fst (interleave st ts sched1))
               (snd (interleave st ts sched1)) sched2.
Proof.
  induction sched1 as [|i sched1 IH]; intros st ts sched2; [done|].
  cbn [app interleave]. destruct (ts !! i) as [t|]; [|apply IH].
  destruct (step st t) as [st1 t1]. apply IH.
Qed.

Lemma step_at st before t after sched :
  interleave st (before ++ t :: after) (length before :: sched)
  = interleave (fst (step st t)) (before ++ snd (step st t) :: after) sched.
Proof.
  cbn [interleave]. rewrite list_lookup_middle by done.
  destruct (step st t) as [st1 t1]. cbn [fst snd].
  by rewrite insert_app_r_alt, Nat.sub_diag by lia.
Qed.

Lemma three_steps_at st before sid uid seats0 uuid now after :
  interleave st (before ++ AtSelect sid uid seats0 uuid now :: after)
             [length before; length before; length before]
  = (fst (reserve st sid uid seats0 uuid now),
     before ++ Returned (snd (reserve st sid uid seats0 uuid now)) :: after).
Proof.
  rewrite step_at. unfold reserve. cbn [step].
  destruct (select_screening st sid) as [screening|];
    [|by rewrite !step_at].
  cbn zeta. destruct (first_conflict _ _); [by rewrite !step_at|].
  cbn [fst snd]. rewrite step_at. cbn [step fst snd]. rewrite step_at.
  cbn [step]. by destruct (insert_reservation _ _).
Qed.

(** Calls for one seat that run in turn on the machine of the calls in
    flight do what [run] does. *)
Lemma in_turn_is_run sid seat calls : forall st before,
  interleave st (before ++ map (in_flight sid seat) calls)
             (in_turn (length before) (length calls))
  = (final st (map (in_turn_call sid seat) calls),
     before ++ map Returned (responses st (map (in_turn_call sid seat) calls))).
Proof.
  induction calls as [|[[uid uuid] now] calls IH]; intros st before.
  - by rewrite !app_nil_r.
  - unfold in_turn. cbn [length seq map concat].
    change (concat (map (fun i => [i; i; i]) (seq (S (length before))
                                                  (length calls))))
      with (in_turn (S (length before)) (length calls)).
    rewrite interleave_app. cbn [in_flight]. rewrite three_steps_at.
    cbn [fst snd].
    rewrite (cons_middle (Returned _)), app_assoc.
    replace (S (length before))
      with (length (before ++ [Returned (snd (reserve st sid uid [seat]
                                                      uuid now))]))
      by (rewrite length_app; cbn; lia).
    rewrite IH. unfold final, responses. cbn [in_turn_call run call].
    destruct (reserve st sid uid [seat] uuid now) as [st1 r]. cbn [fst snd].
    destruct (run st1 _) as [st2 rs]. cbn [fst snd].
    by rewrite <- app_assoc.
Qed.

Lemma requests_in_turn_call sid seat calls :
  Forall (requests sid seat) (map (in_turn_call sid seat) calls).
Proof.
  induction calls as [|[[uid uuid] now] calls IH]; constructor; done.
Qed.

(** The same on the machine of the calls in flight, under the schedule
    that runs them in turn. *)
Lemma first_in_flight_wins st sid screening seat uid uuid now calls :
  screeningTable st !! sid = Some screening ->
  ~ seat_in seat (takenSeats screening) ->
  uuid ∉ id <$> reservationTable st ->
  interleave st (map (in_flight sid seat) ((uid, uuid, now) :: calls))
             (in_turn 0 (S (length calls)))
  = (reserved st sid uid [seat] uuid now screening,
     Returned (ReservationSuccessful uuid)
     :: replicate (length calls)
                  (Returned (ErrorReply 400 (already_taken seat)))).
Proof.
  intros Hs Hfree Hnew.
  pose proof (in_turn_is_run sid seat ((uid, uuid, now) :: calls) st [])
    as Hturn.
  cbn [app] in Hturn. change (@length ReserveTask []) with 0%nat in Hturn.
  cbn [length] in Hturn. rewrite Hturn. unfold final, responses.
  cbn [map in_turn_call].
  rewrite (first_request_wins st sid screening seat uid uuid now); try done.
  2:{ apply requests_in_turn_call. }
  cbn [fst snd map]. rewrite length_map. do 2 f_equal.
  apply (fmap_replicate Returned).
Qed.

(** ** Seat sets *)

Lemma elem_of_seat_set p (l : list Seat) :
  p ∈ seat_set l <-> exists s, s ∈ l /\ seat_id s = p.
Proof.
  unfold seat_set. rewrite elem_of_list_to_set, list_elem_of_fmap.
  split; intros (s & H1 & H2); exists s; done.
Qed.

Lemma seat_set_app l1 l2 : seat_set (l1 ++ l2) = seat_set l1 ∪ seat_set l2.
Proof. unfold seat_set. by rewrite fmap_app, list_to_set_app_L. Qed.

Lemma elem_of_reserved_set p st sid :
  p ∈ reserved_set st sid <->
  exists r s, r ∈ reservationTable st /\ screeningId r = sid
              /\ s ∈ seats r /\ seat_id s = p.
Proof.
  unfold reserved_set, active_reservations.
  rewrite elem_of_union_list. split.
  - intros (X & (r & -> & Hr)%list_elem_of_fmap & Hp).
    apply elem_of_filter_bool in Hr as [Hr Hsid%of_screening_true].
    apply elem_of_seat_set in Hp as (s & Hs & Hp). by exists r, s.
  - intros (r & s & Hr & Hsid & Hs & Hp).
    exists (seat_set (seats r)). split.
    + apply list_elem_of_fmap. exists r. split; [done|].
      apply elem_of_filter_bool. by rewrite of_screening_true.
    + apply elem_of_seat_set. by exists s.
Qed.

Lemma unique_id_eq (l : list Reservation) x y :
  NoDup (id <$> l) -> x ∈ l -> y ∈ l -> id x = id y -> x = y.
Proof.
  induction l as [|a l IH]; intros Hnd Hx Hy Hid.
  - by apply elem_of_nil in Hx.
  - rewrite fmap_cons in Hnd. apply NoDup_cons in Hnd as [Ha Hnd].
    apply elem_of_cons in Hx as [->|Hx], Hy as [->|Hy]; auto.
    + destruct Ha. rewrite Hid. by apply list_elem_of_fmap_2.
    + destruct Ha. rewrite <- Hid. by apply list_elem_of_fmap_2.
Qed.

Lemma NoDup_ids_filter (f : Reservation -> bool) (l : list Reservation) :
  NoDup (id <$> l) -> NoDup (id <$> List.filter f l).
Proof.
  induction l as [|a l IH]; [done|].
  rewrite fmap_cons. intros [Ha Hnd]%NoDup_cons. cbn.
  destruct (f a); [|by apply IH].
  rewrite fmap_cons. apply NoDup_cons. split; [|by apply IH].
  intros (x & Hid & Hx%elem_of_filter_bool)%list_elem_of_fmap.
  apply Ha. rewrite Hid. apply list_elem_of_fmap_2. by destruct Hx.
Qed.

Lemma elem_of_deleted i (l : list Reservation) x :
  x ∈ List.filter (fun r => negb (has_id i r)) l <-> x ∈ l /\ id x <> i.
Proof.
  rewrite elem_of_filter_bool, negb_true_iff, <- not_true_iff_false.
  by rewrite has_id_true.
Qed.

(** A taken seat with the (row, number) pair of a requested seat is a
    conflict for [reserve]. *)
Lemma seat_id_as_taken_in seat t (l : list Seat) :
  t ∈ l -> seat_id t = seat_id (as_taken seat) -> seat_in seat l.
Proof.
  intros Ht [= Hrow Hnum]. exists t. split; [done|].
  by rewrite Hrow, Number_String.
Qed.

Lemma numeric_row_seat_id s t :
  numeric_row s -> seat_id t = seat_id s -> numeric_row t.
Proof. intros [z Hz] [= Hrow _]. exists z. congruence. Qed.

(** ** Consistency is kept *)

Lemma consistent_without_reservations st :
  reservationTable st = [] ->
  (forall sid screening, screeningTable st !! sid = Some screening ->
                         takenSeats screening = []) ->
  consistent st.
Proof.
  intros Hr Ht. split.
  - intros sid screening Hs. unfold taken_set, reserved_set,
      active_reservations. by rewrite (Ht _ _ Hs), Hr.
  - unfold unique_ids. rewrite Hr. apply NoDup_nil_2.
  - intros r s Hin. rewrite Hr in Hin. by apply elem_of_nil in Hin.
  - intros r1 r2 s1 s2 Hin. rewrite Hr in Hin. by apply elem_of_nil in Hin.
Qed.

Lemma reserve_outcomes st sid uid seats0 uuid now :
  uuid ∉ id <$> reservationTable st ->
  (exists status error,
      reserve st sid uid seats0 uuid now = (st, ErrorReply status error))
  \/ (exists screening,
        screeningTable st !! sid = Some screening
        /\ (forall seat, seat ∈ seats0 ->
                         ~ seat_in seat (takenSeats screening))
        /\ reserve st sid uid seats0 uuid now
           = (reserved st sid uid seats0 uuid now screening,
              ReservationSuccessful uuid)).
Proof.
  intros Hfresh.
  destruct (screeningTable st !! sid) as [screening|] eqn:Hs.
  - destruct (first_conflict (takenSeats screening) seats0) as [seat|] eqn:Hc.
    + left. unfold reserve, select_screening. rewrite Hs. cbn zeta.
      rewrite Hc. eauto.
    + right. exists screening. rewrite first_conflict_None in Hc.
      split; [done|]. split; [done|]. by apply reserve_accepts.
  - left. unfold reserve, select_screening. rewrite Hs. eauto.
Qed.

Lemma reserved_consistent st sid uid seats0 uuid now screening :
  consistent st ->
  screeningTable st !! sid = Some screening ->
  (forall seat, seat ∈ seats0 -> ~ seat_in seat (takenSeats screening)) ->
  uuid ∉ id <$> reservationTable st ->
  consistent (reserved st sid uid seats0 uuid now screening).
Proof.
  intros [Hdrift Hpk Hnum Hdb] Hs Hfree Hfresh.
  set (new := mkReservation uuid uid sid (map as_taken seats0)
                            (price screening) now).
  assert (Hnew : forall s, s ∈ seats new ->
                           exists b, b ∈ seats0 /\ s = as_taken b).
  { intros s (b & -> & Hb)%list_elem_of_fmap. eauto. }
  assert (Hclash : forall r s1 s2,
             r ∈ reservationTable st -> screeningId r = sid ->
             s1 ∈ seats new -> s2 ∈ seats r -> seat_id s1 <> seat_id s2).
  { intros r s1 s2 Hr Hrs (b & Hb & ->)%Hnew Hs2 Heq.
    assert (Hin : seat_id s2 ∈ taken_set screening).
    { rewrite (Hdrift _ _ Hs). apply elem_of_reserved_set. by exists r, s2. }
    apply elem_of_seat_set in Hin as (t & Ht & Hid).
    apply (Hfree b Hb), (seat_id_as_taken_in b t); congruence. }
  split.
  - intros sid' screening' Hs'. cbn in Hs'. apply set_eq. intros p.
    rewrite elem_of_reserved_set. cbn [reserved reservationTable].
    destruct (decide (sid' = sid)) as [->|Hne].
    + rewrite lookup_insert_eq in Hs'. injection Hs' as <-.
      unfold taken_set. cbn [takenSeats set_takenSeats].
      rewrite seat_set_app, elem_of_union.
      fold (taken_set screening). rewrite (Hdrift _ _ Hs).
      rewrite elem_of_reserved_set, elem_of_seat_set. split.
      * intros [(r & s & Hr & Hrs & Hin & Hp)|(s & Hin & Hp)].
        -- exists r, s. rewrite elem_of_app. auto.
        -- exists new, s. rewrite elem_of_app, list_elem_of_singleton. auto.
      * intros (r & s & [Hr| ->%list_elem_of_singleton]%elem_of_app
                & Hrs & Hin & Hp); [left; by exists r, s|right; by exists s].
    + rewrite lookup_insert_ne in Hs' by done.
      rewrite (Hdrift _ _ Hs'), elem_of_reserved_set. split.
      * intros (r & s & Hr & Hrs & Hin & Hp). exists r, s.
        rewrite elem_of_app. auto.
      * intros (r & s & [Hr| ->%list_elem_of_singleton]%elem_of_app
                & Hrs & Hin & Hp); [by exists r, s|]. by destruct Hne.
  - unfold unique_ids. cbn [reserved reservationTable].
    rewrite fmap_app. apply NoDup_app. repeat split; [done| |].
    + intros x Hx [->|[]%elem_of_nil]%elem_of_cons. by apply Hfresh.
    + cbn. apply NoDup_singleton.
  - intros r s [Hr| ->%list_elem_of_singleton]%elem_of_app Hin.
    + by apply (Hnum r).
    + apply Hnew in Hin as (b & _ & ->). apply numeric_row_as_taken.
  - intros r1 r2 s1 s2 Hr1 Hr2 Hid Hsid H1 H2.
    cbn [reserved reservationTable] in Hr1, Hr2.
    apply elem_of_app in Hr1 as [Hr1| ->%list_elem_of_singleton],
          Hr2 as [Hr2| ->%list_elem_of_singleton].
    + by apply (Hdb r1 r2).
    + intros Heq. by apply (Hclash r1 s2 s1).
    + by apply (Hclash r2 s1 s2).
    + done.
Qed.

Lemma reserve_consistent st sid uid seats0 uuid now :
  consistent st ->
  uuid ∉ id <$> reservationTable st ->
  consistent (fst (reserve st sid uid seats0 uuid now)).
Proof.
  intros Hc Hfresh.
  destruct (reserve_outcomes st sid uid seats0 uuid now Hfresh)
    as [(status & error & ->)|(screening & Hs & Hfree & ->)]; [done|].
  by apply reserved_consistent.
Qed.

Lemma cancel_consistent st sid uid :
  consistent st -> consistent (fst (cancel st sid uid)).
Proof.
  intros Hc.
  destruct (select_reservation st sid uid) as [r|] eqn:Hsel.
  2:{ unfold cancel. by rewrite Hsel. }
  destruct (cancel_found st sid uid r Hsel)
    as (st' & -> & Hres & Hother & Hnone & Hscr).
  cbn [fst]. destruct Hc as [Hdrift Hpk Hnum Hdb].
  assert (Hr : r ∈ reservationTable st /\ screeningId r = sid).
  { unfold select_reservation in Hsel. apply find_some in Hsel as [Hin Hf].
    apply for_screening_and_user_true in Hf as [? _].
    by rewrite list_elem_of_In. }
  destruct Hr as [Hr Hrs].
  assert (Hin' : forall x, x ∈ reservationTable st' <->
                           x ∈ reservationTable st /\ id x <> id r).
  { intros x. rewrite Hres. apply elem_of_deleted. }
  split.
  - intros sid' screening' Hs'. apply set_eq. intros p.
    rewrite elem_of_reserved_set.
    destruct (decide (sid' = sid)) as [->|Hne].
    + destruct (screeningTable st !! sid) as [screening|] eqn:Hs.
      2:{ by rewrite (Hnone eq_refl) in Hs'. }
      rewrite (Hscr _ eq_refl) in Hs'. injection Hs' as <-.
      unfold taken_set. cbn [takenSeats set_takenSeats].
      rewrite elem_of_seat_set.
      pose proof (Hdrift _ _ Hs) as Heq. split.
      * intros (t & [Ht Hstay]%elem_of_filter_bool & Hp).
        assert (Hpin : p ∈ taken_set screening).
        { apply elem_of_seat_set. by exists t. }
        rewrite Heq in Hpin.
        apply elem_of_reserved_set in Hpin as (x & s & Hx & Hxs & Hsx & Hps).
        exists x, s. repeat split; try done. apply Hin'. split; [done|].
        intros Hid. assert (x = r) as -> by by apply (unique_id_eq _ x r Hpk).
        apply stays_taken_true in Hstay. apply Hstay. exists s.
        split; [done|]. apply same_seat_true, same_seat_numeric.
        -- apply (numeric_row_seat_id s); [by apply (Hnum r)|congruence].
        -- by apply (Hnum r).
        -- congruence.
      * intros (x & s & [Hx Hid]%Hin' & Hxs & Hsx & Hps).
        assert (Hpin : p ∈ taken_set screening).
        { rewrite Heq. apply elem_of_reserved_set. by exists x, s. }
        apply elem_of_seat_set in Hpin as (t & Ht & Hp).
        exists t. split; [|done]. apply elem_of_filter_bool.
        split; [done|]. apply stays_taken_true.
        intros (rs & Hrsin & Hsame%same_seat_true).
        apply same_seat_numeric in Hsame.
        -- apply (Hdb x r s rs); try done; congruence.
        -- apply (numeric_row_seat_id s); [by apply (Hnum x)|congruence].
        -- by apply (Hnum r).
    + rewrite (Hother _ Hne) in Hs'.
      rewrite (Hdrift _ _ Hs'), elem_of_reserved_set. split.
      * intros (x & s & Hx & Hxs & Hsx & Hps). exists x, s.
        repeat split; try done. apply Hin'. split; [done|].
        intros Hid. assert (x = r) as -> by by apply (unique_id_eq _ x r Hpk).
        congruence.
      * intros (x & s & [Hx _]%Hin' & Hxs & Hsx & Hps). by exists x, s.
  - unfold unique_ids. rewrite Hres. by apply NoDup_ids_filter.
  - intros x s [Hx _]%Hin' Hs. by apply (Hnum x).
  - intros r1 r2 s1 s2 [H1 _]%Hin' [H2 _]%Hin'. by apply Hdb.
Qed.

Lemma final_cons st c cs : final st (c :: cs) = final (fst (call st c)) cs.
Proof.
  unfold final. cbn [run]. destruct (call st c) as [st1 r].
  cbn [fst]. by destruct (run st1 cs).
Qed.

Lemma call_consistent st c :
  consistent st -> fresh_uuids st [c] = true -> consistent (fst (call st c)).
Proof.
  intros Hc Hfresh. destruct c as [sid uid seats0 uuid now|sid uid]; cbn [call].
  - apply reserve_consistent; [done|]. cbn in Hfresh.
    rewrite andb_true_r in Hfresh. by apply fresh_id_iff, negb_true_iff.
  - by apply cancel_consistent.
Qed.

Lemma run_consistent cs : forall st,
  consistent st -> fresh_uuids st cs = true -> consistent (final st cs).
Proof.
  induction cs as [|c cs IH]; intros st Hc Hfresh; [done|].
  rewrite final_cons. cbn [fresh_uuids] in Hfresh.
  apply andb_true_iff in Hfresh as [Hnew Hrest].
  apply IH; [|done]. apply call_consistent; [done|].
  cbn [fresh_uuids]. by rewrite Hnew.
Qed.

(** ** No drift *)


Lemma store0_consistent : consistent store0.
Proof.
  apply consistent_without_reservations; [done|].
  intros sid screening Hs. cbn in Hs.
  by apply lookup_singleton_Some in Hs as [_ <-].
Qed.



(** The rows have to be numerals as well: a seat whose row is a letter
    reads as [NaN], matches no seat, itself included, and stays taken after
    its reservation is cancelled. *)
Example letter_row_stays_taken :
  exists st',
    cancel store_letter "s1" "u1" = (st', ReservationCancelled)
    /\ takenSeats <$> screeningTable st' !! "s1"
       = Some [mkSeat "A" 1 false]
    /\ reservationTable st' = [].
Proof. eexists. split; [reflexivity|]. split; reflexivity. Qed.

(** * Further properties of the handlers *)

Lemma store1_consistent : consistent store1.
Proof.
  change store1
    with (final store0 [Reserve "s1" "u1" [mkBodySeat 1 2] "r1" 5]).
  apply run_consistent; [apply store0_consistent|reflexivity].
Qed.

Lemma store2_consistent : consistent store2.
Proof.
  change store2
    with (final store0 [Reserve "s1" "u1" [mkBodySeat 1 2] "r1" 5;
                        Reserve "s1" "u2" [mkBodySeat 1 3; mkBodySeat 2 3]
                                "r2" 6]).
  apply run_consistent; [apply store0_consistent|reflexivity].
Qed.

Lemma lookup_update_takenSeats st sid v s :
  screeningTable st !! sid = Some s ->
  screeningTable (update_takenSeats st sid v) !! sid
  = Some (set_takenSeats v s).
Proof. intros Hs. cbn. by rewrite lookup_alter_eq, Hs. Qed.

Lemma lookup_update_takenSeats_ne st sid v sid' :
  sid' <> sid ->
  screeningTable (update_takenSeats st sid v) !! sid'
  = screeningTable st !! sid'.
Proof. intros Hne. cbn. by rewrite lookup_alter_ne. Qed.

Lemma reserved_set_update_takenSeats st sid v sid' :
  reserved_set (update_takenSeats st sid v) sid' = reserved_set st sid'.
Proof. reflexivity. Qed.

(** ** What [reserve] refuses, and what it leaves alone *)

(** X1.  What [reserve] answers is decided by three tests, in this order:
    404 exactly when the screening does not exist; 400 exactly when it
    exists and a requested seat is taken; a throw exactly when it exists,
    no requested seat is taken and the UUID is in use; a reservation id
    exactly when it exists, no requested seat is taken and the UUID is new.
    The two refusals, 404 and 400, are its only error replies and leave both
    tables as they were.  The stored seats have the numeral of a safe integer
    as row and a safe number; a seat is taken when a stored seat has its row
    numeral and its number. *)
Theorem reserve_refusal st sid uid seats0 uuid now :
  (forall screening s,
     screeningTable st !! sid = Some screening ->
     s ∈ takenSeats screening -> safe_seat s) ->
  (snd (reserve st sid uid seats0 uuid now)
   = ErrorReply 404 "Screening not found"
   <-> screeningTable st !! sid = None)
  /\ ((exists error,
         snd (reserve st sid uid seats0 uuid now) = ErrorReply 400 error)
      <-> exists screening seat,
            screeningTable st !! sid = Some screening
            /\ seat ∈ seats0 /\ holds (takenSeats screening) seat)
  /\ (snd (reserve st sid uid seats0 uuid now) = StoreThrew
      <-> exists screening,
            screeningTable st !! sid = Some screening
            /\ (forall seat, seat ∈ seats0 ->
                             ~ holds (takenSeats screening) seat)
            /\ uuid ∈ id <$> reservationTable st)
  /\ ((exists rid,
         snd (reserve st sid uid seats0 uuid now) = ReservationSuccessful rid)
      <-> exists screening,
            screeningTable st !! sid = Some screening
            /\ (forall seat, seat ∈ seats0 ->
                             ~ holds (takenSeats screening) seat)
            /\ uuid ∉ id <$> reservationTable st)
  /\ (forall status error,
        snd (reserve st sid uid seats0 uuid now) = ErrorReply status error ->
        fst (reserve st sid uid seats0 uuid now) = st
        /\ (status = 404 \/ status = 400)).
Proof.
  intros Hrows. unfold reserve, select_screening.
  destruct (screeningTable st !! sid) as [screening|] eqn:Hs.
  2:{ cbn [fst snd]. outcome. }
  cbn zeta.
  destruct (first_conflict (takenSeats screening) seats0) as [seat|] eqn:Hc.
  - assert (Hseat : seat ∈ seats0 /\ holds (takenSeats screening) seat).
    { unfold first_conflict in Hc. apply find_some in Hc as [Hin Ht].
      split; [by apply list_elem_of_In|].
      apply seat_in_holds; [|by apply taken_seat_in].
      intros s Hs'. by apply (Hrows screening s). }
    cbn [fst snd]. outcome.
  - assert (Hfree : forall seat, seat ∈ seats0 ->
                                 ~ holds (takenSeats screening) seat).
    { intros seat Hin Hh%holds_seat_in.
      by apply (proj1 (first_conflict_None _ _) Hc seat). }
    unfold insert_reservation. cbn [update_takenSeats reservationTable id].
    destruct (existsb (has_id uuid) (reservationTable st)) eqn:E;
      cbn [fst snd].
    + assert (Hused : uuid ∈ id <$> reservationTable st).
      { destruct (decide (uuid ∈ id <$> reservationTable st)) as [|Hnew];
          [done|].
        apply fresh_id_iff in Hnew. congruence. }
      outcome.
    + apply fresh_id_iff in E. outcome.
Qed.

Lemma reserve_refusal_witness :
  ((snd (reserve store1 "s1" "u2" [mkBodySeat 1 3; seat12] "r2" 6)
    = ErrorReply 404 "Screening not found"
    <-> screeningTable store1 !! "s1" = None)
   /\ ((exists error,
          snd (reserve store1 "s1" "u2" [mkBodySeat 1 3; seat12] "r2" 6)
          = ErrorReply 400 error)
       <-> exists screening seat,
             screeningTable store1 !! "s1" = Some screening
             /\ seat ∈ [mkBodySeat 1 3; seat12]
             /\ holds (takenSeats screening) seat)
   /\ (snd (reserve store1 "s1" "u2" [mkBodySeat 1 3; seat12] "r2" 6)
       = StoreThrew
       <-> exists screening,
             screeningTable store1 !! "s1" = Some screening
             /\ (forall seat, seat ∈ [mkBodySeat 1 3; seat12] ->
                              ~ holds (takenSeats screening) seat)
             /\ "r2" ∈ id <$> reservationTable store1)
   /\ ((exists rid,
          snd (reserve store1 "s1" "u2" [mkBodySeat 1 3; seat12] "r2" 6)
          = ReservationSuccessful rid)
       <-> exists screening,
             screeningTable store1 !! "s1" = Some screening
             /\ (forall seat, seat ∈ [mkBodySeat 1 3; seat12] ->
                              ~ holds (takenSeats screening) seat)
             /\ "r2" ∉ id <$> reservationTable store1)
   /\ (forall status error,
         snd (reserve store1 "s1" "u2" [mkBodySeat 1 3; seat12] "r2" 6)
         = ErrorReply status error ->
         fst (reserve store1 "s1" "u2" [mkBodySeat 1 3; seat12] "r2" 6)
         = store1
         /\ (status = 404 \/ status = 400)))
  /\ snd (reserve store1 "s1" "u2" [mkBodySeat 1 3; seat12] "r2" 6)
     = ErrorReply 400 "Seat row 1 number 2 is already taken".
Proof.
  split; [|reflexivity].
  apply (reserve_refusal store1 "s1" "u2" [mkBodySeat 1 3; seat12] "r2" 6).
  intros screening s Hs. cbn in Hs. injection Hs as <-.
  intros ->%list_elem_of_singleton. split; [by exists 1|done].
Defined.

(** X2.  [reserve] writes the taken seats before it inserts the
    reservation and undoes nothing: when the insert is rejected, here for a
    reservation id already in use, the call throws, the requested seats
    stay marked taken and no reservation holds them.  The stored seats have
    the numeral of a safe integer as row and a safe number, and the
    requested coordinates are safe. *)
Theorem reserve_rejected_insert st sid screening uid seats0 uuid now :
  no_drift st ->
  screeningTable st !! sid = Some screening ->
  (forall s, s ∈ takenSeats screening -> safe_seat s) ->
  (forall seat, seat ∈ seats0 -> safe_request seat) ->
  seats0 <> [] ->
  (forall seat, seat ∈ seats0 -> ~ holds (takenSeats screening) seat) ->
  uuid ∈ id <$> reservationTable st ->
  exists st' screening',
    reserve st sid uid seats0 uuid now = (st', StoreThrew)
    /\ reservationTable st' = reservationTable st
    /\ screeningTable st' !! sid = Some screening'
    /\ takenSeats screening'
       = takenSeats screening
         ++ map (fun seat => mkSeat (decimal (body_row seat))
                                    (body_number seat) false) seats0
    /\ ~ no_drift st'.
Proof.
  intros Hdrift Hs Hrows _ Hne Hheld Hused.
  pose proof (none_held_free _ _ Hrows Hheld) as Hfree.
  set (st1 := update_takenSeats st sid
                (takenSeats screening ++ map as_taken seats0)).
  assert (Hrun : reserve st sid uid seats0 uuid now = (st1, StoreThrew)).
  { unfold reserve, select_screening. rewrite Hs. cbn zeta.
    rewrite (proj2 (first_conflict_None _ _) Hfree).
    unfold insert_reservation. cbn [update_takenSeats reservationTable id].
    destruct (existsb (has_id uuid) (reservationTable st)) eqn:E; [done|].
    by apply fresh_id_iff in E. }
  exists st1, (set_takenSeats (takenSeats screening ++ map as_taken seats0)
                              screening).
  split; [done|]. split; [done|].
  split; [by apply lookup_update_takenSeats|]. split; [done|].
  intros Hdrift'. destruct seats0 as [|b seats0]; [done|].
  specialize (Hdrift' sid _ (lookup_update_takenSeats st sid _ _ Hs)).
  assert (Hin : seat_id (as_taken b) ∈ reserved_set st sid).
  { unfold st1 in Hdrift'. rewrite reserved_set_update_takenSeats in Hdrift'.
    rewrite <- Hdrift'. apply elem_of_seat_set.
    exists (as_taken b). split; [|done]. cbn [takenSeats set_takenSeats map].
    apply elem_of_app. right. apply list_elem_of_here. }
  rewrite <- (Hdrift _ _ Hs) in Hin.
  apply elem_of_seat_set in Hin as (t & Ht & Hid).
  apply (Hfree b (list_elem_of_here _ _)).
  by apply (seat_id_as_taken_in b t).
Qed.

Lemma reserve_rejected_insert_witness :
  (exists st' screening',
     reserve store1 "s1" "u2" [mkBodySeat 1 3] "r1" 6 = (st', StoreThrew)
     /\ reservationTable st' = reservationTable store1
     /\ screeningTable st' !! "s1" = Some screening'
     /\ takenSeats screening'
        = [mkSeat "1" 2 false]
          ++ map (fun seat => mkSeat (decimal (body_row seat))
                                     (body_number seat) false)
                 [mkBodySeat 1 3]
     /\ ~ no_drift st')
  /\ snd (reserve store1 "s1" "u2" [mkBodySeat 1 3] "r1" 6) = StoreThrew
  /\ screeningTable (fst (reserve store1 "s1" "u2" [mkBodySeat 1 3] "r1" 6))
     !! "s1"
     = Some (mkScreening "m1" "a1" 0 7200 "12.50"
               [mkSeat "1" 2 false; mkSeat "1" 3 false]).
Proof.
  split; [|split; reflexivity].
  apply (reserve_rejected_insert store1 "s1"
           (mkScreening "m1" "a1" 0 7200 "12.50" [mkSeat "1" 2 false]) "u2"
           [mkBodySeat 1 3] "r1" 6).
  - apply store1_consistent.
  - reflexivity.
  - intros s ->%list_elem_of_singleton. split; [by exists 1|done].
  - intros seat ->%list_elem_of_singleton. by split.
  - discriminate.
  - intros seat ->%list_elem_of_singleton
           (s & ->%list_elem_of_singleton & _ & Hnum).
    discriminate Hnum.
  - apply list_elem_of_here.
Defined.

(** The three stores a [reserve] call can leave. *)
Lemma reserve_store_cases st sid uid seats0 uuid now :
  fst (reserve st sid uid seats0 uuid now) = st
  \/ exists screening,
       screeningTable st !! sid = Some screening
       /\ (fst (reserve st sid uid seats0 uuid now)
            = update_takenSeats st sid
                (takenSeats screening ++ map as_taken seats0)
           \/ (uuid ∉ id <$> reservationTable st)
              /\ fst (reserve st sid uid seats0 uuid now)
                 = reserved st sid uid seats0 uuid now screening).
Proof.
  unfold reserve, select_screening.
  destruct (screeningTable st !! sid) as [screening|] eqn:Hs; [|by left].
  cbn zeta. destruct (first_conflict _ _); [by left|].
  right. exists screening. split; [done|].
  destruct (insert_reservation _ _) as [st2|] eqn:Hins; [|by left].
  right. apply insert_reservation_Some in Hins as [Hfresh ->].
  split; [done|]. unfold reserved, update_takenSeats. cbn.
  by rewrite (alter_set_takenSeats _ _ screening).
Qed.

(** X3.  Whatever its outcome, [reserve] touches no other screening,
    changes no column of its screening but the taken seats, never frees a
    taken seat, and never changes or removes a reservation: the old lists
    are prefixes of the new ones. *)
Theorem reserve_keeps_the_rest st sid uid seats0 uuid now :
  (forall sid', sid' <> sid ->
     screeningTable (fst (reserve st sid uid seats0 uuid now)) !! sid'
     = screeningTable st !! sid')
  /\ (forall s,
        screeningTable st !! sid = Some s ->
        exists s',
          screeningTable (fst (reserve st sid uid seats0 uuid now)) !! sid
          = Some s'
          /\ s' = set_takenSeats (takenSeats s') s
          /\ takenSeats s `prefix_of` takenSeats s')
  /\ (screeningTable st !! sid = None ->
      fst (reserve st sid uid seats0 uuid now) = st)
  /\ reservationTable st
     `prefix_of` reservationTable (fst (reserve st sid uid seats0 uuid now)).
Proof.
  destruct (reserve_store_cases st sid uid seats0 uuid now)
    as [->|(screening & Hs & [->| [_ ->]])].
  - split; [done|]. split; [|done].
    intros s Hs. exists s. by rewrite set_takenSeats_same.
  - split; [intros sid' Hne; by apply lookup_update_takenSeats_ne|].
    split; [|split; [by rewrite Hs|done]].
    intros s Hs'. rewrite Hs in Hs'. injection Hs' as <-.
    eexists. split; [by apply lookup_update_takenSeats|].
    split; [done|]. by apply prefix_app_r.
  - split; [intros sid' Hne; cbn; by rewrite lookup_insert_ne|].
    split; [|split; [by rewrite Hs|by apply prefix_app_r]].
    intros s Hs'. rewrite Hs in Hs'. injection Hs' as <-.
    eexists. split; [cbn; apply lookup_insert_eq|].
    split; [done|]. by apply prefix_app_r.
Qed.

(** ** What [cancel] leaves alone *)

Lemma sublist_List_filter {A} (f : A -> bool) (l : list A) :
  List.filter f l `sublist_of` l.
Proof.
  induction l as [|a l IH]; cbn; [constructor|].
  destruct (f a); by constructor.
Qed.

(** X4.  Whatever its outcome, [cancel] touches no other screening, changes
    no column of its screening but the taken seats, marks no seat taken and
    inserts no reservation; on a table with distinct ids it removes no
    reservation of another user or another screening. *)
Theorem cancel_keeps_the_rest st sid uid :
  unique_ids st ->
  (forall sid', sid' <> sid ->
     screeningTable (fst (cancel st sid uid)) !! sid'
     = screeningTable st !! sid')
  /\ (forall s,
        screeningTable st !! sid = Some s ->
        exists s',
          screeningTable (fst (cancel st sid uid)) !! sid = Some s'
          /\ s' = set_takenSeats (takenSeats s') s
          /\ takenSeats s' `sublist_of` takenSeats s)
  /\ reservationTable (fst (cancel st sid uid))
     `sublist_of` reservationTable st
  /\ (forall r, r ∈ reservationTable st ->
                screeningId r <> sid \/ userId r <> uid ->
                r ∈ reservationTable (fst (cancel st sid uid))).
Proof.
  intros Hpk.
  destruct (select_reservation st sid uid) as [found|] eqn:Hsel.
  2:{ unfold cancel. rewrite Hsel. cbn [fst].
      split; [done|]. split; [|done].
      intros s Hs. exists s. by rewrite set_takenSeats_same. }
  destruct (cancel_found st sid uid found Hsel)
    as (st' & -> & Hres & Hother & _ & Hscr).
  cbn [fst]. split; [done|]. split; [|split].
  - intros s Hs. eexists. split; [by apply Hscr|].
    split; [done|]. apply sublist_List_filter.
  - rewrite Hres. apply sublist_List_filter.
  - intros r Hr Hnot. rewrite Hres. apply elem_of_deleted. split; [done|].
    intros Hid. unfold select_reservation in Hsel.
    apply find_some in Hsel as [Hin Hf].
    apply for_screening_and_user_true in Hf as [Hfs Hfu].
    apply list_elem_of_In in Hin.
    assert (r = found) as -> by by apply (unique_id_eq _ r found Hpk).
    by destruct Hnot.
Qed.

Lemma cancel_keeps_the_rest_witness :
  (forall sid', sid' <> "s1" ->
     screeningTable (fst (cancel store2 "s1" "u1")) !! sid'
     = screeningTable store2 !! sid')
  /\ (forall s,
        screeningTable store2 !! "s1" = Some s ->
        exists s',
          screeningTable (fst (cancel store2 "s1" "u1")) !! "s1" = Some s'
          /\ s' = set_takenSeats (takenSeats s') s
          /\ takenSeats s' `sublist_of` takenSeats s)
  /\ reservationTable (fst (cancel store2 "s1" "u1"))
     `sublist_of` reservationTable store2
  /\ (forall r, r ∈ reservationTable store2 ->
                screeningId r <> "s1" \/ userId r <> "u1" ->
                r ∈ reservationTable (fst (cancel store2 "s1" "u1"))).
Proof.
  apply (cancel_keeps_the_rest store2 "s1" "u1").
  apply store2_consistent.
Defined.

Lemma held_app st l1 l2 sid uid :
  reservationTable st = l1 ++ l2 ->
  held st sid uid
  = (length (List.filter (for_screening_and_user sid uid) l1)
     + length (List.filter (for_screening_and_user sid uid) l2))%nat.
Proof.
  intros H. unfold held. by rewrite H, List.filter_app, length_app.
Qed.

(** X5.  On a table with distinct ids, a [cancel] by a user who holds at
    least one reservation for the screening succeeds and takes away exactly
    one of them; what any other user holds, and what this user holds for
    other screenings, stays the same. *)
Theorem cancel_takes_one st sid uid :
  unique_ids st ->
  (0 < held st sid uid)%nat ->
  exists st',
    cancel st sid uid = (st', ReservationCancelled)
    /\ S (held st' sid uid) = held st sid uid
    /\ (forall sid' uid',
          (sid', uid') <> (sid, uid) ->
          held st' sid' uid' = held st sid' uid').
Proof.
  intros Hpk Hheld.
  assert (exists r0, r0 ∈ reservationTable st
                     /\ screeningId r0 = sid /\ userId r0 = uid)
    as (r0 & Hin & Hs & Hu).
  { unfold held in Hheld.
    destruct (List.filter _ _) as [|r0 l] eqn:E; [cbn in Hheld; lia|].
    assert (Hr0 : r0 ∈ List.filter (for_screening_and_user sid uid)
                                   (reservationTable st))
      by (rewrite E; apply list_elem_of_here).
    apply elem_of_filter_bool in Hr0 as [? Hf].
    apply for_screening_and_user_true in Hf as [? ?]. eauto. }
  destruct (select_reservation_first st sid uid r0 Hin Hs Hu)
    as (before & r & after & Hsplit & Hrs & Hru & _ & Hsel).
  destruct (cancel_found st sid uid r Hsel)
    as (st' & Hc & Hres & _).
  assert (Hres' : reservationTable st' = before ++ after).
  { rewrite Hres, Hsplit. apply delete_unique.
    unfold unique_ids in Hpk. by rewrite Hsplit in Hpk. }
  exists st'. split; [done|]. split.
  - rewrite (held_app st' before after), (held_app st before (r :: after));
      try done.
    cbn [List.filter].
    rewrite (proj2 (for_screening_and_user_true sid uid r)) by done.
    cbn [length]. lia.
  - intros sid' uid' Hne.
    rewrite (held_app st' before after), (held_app st before (r :: after));
      try done.
    cbn [List.filter].
    destruct (for_screening_and_user sid' uid' r) eqn:E; [|done].
    apply for_screening_and_user_true in E as [<- <-].
    by rewrite Hrs, Hru in Hne.
Qed.

Lemma cancel_takes_one_witness :
  exists st',
    cancel store2 "s1" "u2" = (st', ReservationCancelled)
    /\ S (held st' "s1" "u2") = held store2 "s1" "u2"
    /\ (forall sid' uid',
          (sid', uid') <> ("s1", "u2") ->
          held st' sid' uid' = held store2 sid' uid').
Proof.
  apply (cancel_takes_one store2 "s1" "u2").
  - apply store2_consistent.
  - vm_compute. lia.
Defined.

(** X9.  After a [cancel], every seat of the cancelled reservation is
    free: a [reserve] for it with a new UUID succeeds at once, whoever
    else may hold that seat. *)
Theorem cancelled_seat_is_free st sid uid reservation screening rSeat z
    uid' uuid' now' :
  select_reservation st sid uid = Some reservation ->
  screeningTable st !! sid = Some screening ->
  rSeat ∈ seats reservation ->
  Number_ (row rSeat) = Num z ->
  uuid' ∉ id <$> reservationTable (fst (cancel st sid uid)) ->
  snd (reserve (fst (cancel st sid uid)) sid uid'
               [mkBodySeat z (number rSeat)] uuid' now')
  = ReservationSuccessful uuid'.
Proof.
  intros Hsel Hs Hin Hrow Hfresh.
  destruct (cancel_found st sid uid reservation Hsel)
    as (st' & Hc & _ & _ & _ & Hscr).
  rewrite Hc in Hfresh |- *. cbn [fst] in *.
  rewrite (reserve_accepts st' sid uid' _ uuid' now' _ (Hscr _ Hs));
    [done| |done].
  intros seat ->%list_elem_of_singleton (t & Ht & Htrow & Htnum).
  cbn [takenSeats set_takenSeats body_row body_number] in Ht, Htrow, Htnum.
  apply elem_of_filter_bool in Ht as [_ Hstay].
  apply stays_taken_true in Hstay. apply Hstay.
  exists rSeat. split; [done|]. by exists z.
Qed.

Lemma cancelled_seat_is_free_witness :
  snd (reserve (fst (cancel double_booked "s1" "u1")) "s1" "u3"
               [mkBodySeat 1 (number (mkSeat "1" 2 false))] "r3" 9)
  = ReservationSuccessful "r3".
Proof.
  apply (cancelled_seat_is_free double_booked "s1" "u1"
           (mkReservation "r1" "u1" "s1" [mkSeat "1" 2 false] "12.50" 5)
           (set_takenSeats [mkSeat "1" 2 false] screening0)
           (mkSeat "1" 2 false) 1 "u3" "r3" 9).
  - reflexivity.
  - reflexivity.
  - apply list_elem_of_here.
  - reflexivity.
  - apply fresh_id_iff. reflexivity.
Defined.

(** ** Invariants of any sequence of calls *)

Lemma call_unique_ids st c : unique_ids st -> unique_ids (fst (call st c)).
Proof.
  intros Hpk. destruct c as [sid uid seats0 uuid now|sid uid]; cbn [call].
  - destruct (reserve_store_cases st sid uid seats0 uuid now)
      as [->|(screening & _ & [->| [Hfresh ->]])]; try done.
    unfold unique_ids, reserved. cbn [reservationTable].
    rewrite fmap_app. apply NoDup_app. repeat split; [done| |].
    + intros x Hx [->|[]%elem_of_nil]%elem_of_cons. by apply Hfresh.
    + cbn. apply NoDup_singleton.
  - destruct (select_reservation st sid uid) as [found|] eqn:Hsel.
    + destruct (cancel_found st sid uid found Hsel) as (st' & -> & Hres & _).
      unfold unique_ids. cbn [fst]. rewrite Hres.
      by apply NoDup_ids_filter.
    + unfold cancel. by rewrite Hsel.
Qed.

(** X6.  The reservation ids stay distinct through any sequence of
    [reserve] and [cancel] calls, whatever UUIDs the calls are given: an id
    in use is refused by the insert. *)
Theorem unique_ids_kept cs : forall st,
  unique_ids st -> unique_ids (final st cs).
Proof.
  induction cs as [|c cs IH]; intros st Hpk; [done|].
  rewrite final_cons. by apply IH, call_unique_ids.
Qed.

Lemma unique_ids_kept_witness :
  unique_ids
    (final store1 [Reserve "s1" "u2" [mkBodySeat 1 3] "r1" 6;
                   Reserve "s1" "u2" [mkBodySeat 1 4] "r2" 7;
                   Cancel "s1" "u1";
                   Reserve "s1" "u3" [mkBodySeat 1 2] "r2" 8]).
Proof.
  apply (unique_ids_kept _ store1). apply store1_consistent.
Defined.



(** X8.  Once a [reserve] has succeeded, a [reserve] that follows it and
    names any of the seats it took is refused with 400 and changes nothing,
    whoever sends it and whatever else it asks for. *)
Theorem reserved_seat_is_refused st sid uid seats0 uuid now st1 rid
    seat uid' seats1 uuid' now' :
  reserve st sid uid seats0 uuid now = (st1, ReservationSuccessful rid) ->
  seat ∈ seats0 -> seat ∈ seats1 ->
  exists error,
    reserve st1 sid uid' seats1 uuid' now' = (st1, ErrorReply 400 error).
Proof.
  intros (screening & Hs & _ & _ & -> & ->)%reserve_succeeded Hin0 Hin1.
  set (taken1 := takenSeats screening ++ map as_taken seats0).
  destruct (find_first (fun x => existsb (taken_by x) taken1) seats1)
    as (before & seat' & after & Hsplit & _ & _ & Hfind).
  { exists seat. split; [done|]. apply existsb_exists.
    exists (as_taken seat). split.
    - apply in_or_app. right. by apply in_map, list_elem_of_In.
    - by rewrite <- same_seat_as_taken, same_seat_refl_as_taken. }
  exists (already_taken seat').
  unfold reserve, select_screening, first_conflict, reserved.
  cbn [screeningTable]. rewrite lookup_insert_eq. cbn zeta.
  cbn [takenSeats set_takenSeats]. fold taken1. by rewrite Hfind.
Qed.

Lemma reserved_seat_is_refused_witness :
  exists error,
    reserve (fst (reserve store1 "s1" "u2"
                          [mkBodySeat 1 3; mkBodySeat 2 3] "r2" 6))
            "s1" "u3" [mkBodySeat 7 7; mkBodySeat 2 3] "r3" 7
    = (fst (reserve store1 "s1" "u2"
                    [mkBodySeat 1 3; mkBodySeat 2 3] "r2" 6),
       ErrorReply 400 error).
Proof.
  apply (reserved_seat_is_refused store1 "s1" "u2"
           [mkBodySeat 1 3; mkBodySeat 2 3] "r2" 6 _ "r2"
           (mkBodySeat 2 3) "u3" [mkBodySeat 7 7; mkBodySeat 2 3] "r3" 7).
  - reflexivity.
  - apply list_elem_of_further, list_elem_of_here.
  - apply list_elem_of_further, list_elem_of_here.
Defined.

(** ** Calls in flight, under any schedule *)

(** X10.  Two [reserve] calls on the same screening that both read it
    before either writes it both succeed, whatever free seats they ask for;
    both reservations are inserted, and the taken-seat list written last
    replaces the one written first: the seats of the first call are
    reserved but not marked taken.  The stored seats have the numeral of a
    safe integer as row and a safe number, and the requested coordinates
    are safe. *)
Theorem overlapping_reserves st sid screening
    uid1 seats1 uuid1 now1 uid2 seats2 uuid2 now2 :
  screeningTable st !! sid = Some screening ->
  (forall s, s ∈ takenSeats screening -> safe_seat s) ->
  (forall seat, seat ∈ seats1 ++ seats2 -> safe_request seat) ->
  (forall seat, seat ∈ seats1 ++ seats2 ->
                ~ holds (takenSeats screening) seat) ->
  uuid1 ∉ id <$> reservationTable st ->
  uuid2 ∉ id <$> reservationTable st ->
  uuid1 <> uuid2 ->
  exists st' screening',
    interleave st
      [AtSelect sid uid1 seats1 uuid1 now1;
       AtSelect sid uid2 seats2 uuid2 now2]
      [0; 1; 0; 1; 0; 1]%nat
    = (st', [Returned (ReservationSuccessful uuid1);
             Returned (ReservationSuccessful uuid2)])
    /\ screeningTable st' !! sid = Some screening'
    /\ takenSeats screening'
       = takenSeats screening
         ++ map (fun seat => mkSeat (decimal (body_row seat))
                                    (body_number seat) false) seats2
    /\ reservationTable st'
       = reservationTable st
         ++ [mkReservation uuid1 uid1 sid
               (map (fun seat => mkSeat (decimal (body_row seat))
                                        (body_number seat) false) seats1)
               (price screening) now1;
             mkReservation uuid2 uid2 sid
               (map (fun seat => mkSeat (decimal (body_row seat))
                                        (body_number seat) false) seats2)
               (price screening) now2].
Proof.
  intros Hs Hrows _ Hheld Hnew1 Hnew2 Hne.
  pose proof (none_held_free _ _ Hrows Hheld) as Hfree.
  assert (Hfree1 : first_conflict (takenSeats screening) seats1 = None).
  { apply first_conflict_None. intros seat Hin. apply Hfree.
    apply elem_of_app. by left. }
  assert (Hfree2 : first_conflict (takenSeats screening) seats2 = None).
  { apply first_conflict_None. intros seat Hin. apply Hfree.
    apply elem_of_app. by right. }
  eexists _, (set_takenSeats (takenSeats screening ++ map as_taken seats2)
                             screening).
  cbn [interleave lookup list_lookup insert list_insert step].
  unfold select_screening. rewrite Hs, Hfree1.
  cbn [interleave lookup list_lookup insert list_insert step].
  unfold select_screening. rewrite Hs, Hfree2.
  cbn [interleave lookup list_lookup insert list_insert step].
  rewrite insert_reservation_fresh by done.
  cbn [interleave lookup list_lookup insert list_insert step
       update_takenSeats screeningTable reservationTable].
  rewrite insert_reservation_fresh.
  2:{ cbn [reservationTable id]. rewrite fmap_app.
      intros [Hin|Hin%list_elem_of_singleton]%elem_of_app; [done|].
      by apply Hne. }
  cbn [interleave screeningTable reservationTable id].
  split; [done|]. cbn [screeningTable reservationTable].
  split; [by rewrite !lookup_alter_eq, Hs|].
  split; [done|]. by rewrite <- app_assoc.
Qed.

Lemma overlapping_reserves_witness :
  (exists st' screening',
     interleave store1
       [AtSelect "s1" "u2" [mkBodySeat 1 3] "r2" 6;
        AtSelect "s1" "u3" [mkBodySeat 1 4] "r3" 7]
       [0; 1; 0; 1; 0; 1]%nat
     = (st', [Returned (ReservationSuccessful "r2");
              Returned (ReservationSuccessful "r3")])
     /\ screeningTable st' !! "s1" = Some screening'
     /\ takenSeats screening'
        = [mkSeat "1" 2 false]
          ++ map (fun seat => mkSeat (decimal (body_row seat))
                                     (body_number seat) false)
                 [mkBodySeat 1 4]
     /\ reservationTable st'
        = reservationTable store1
          ++ [mkReservation "r2" "u2" "s1"
                (map (fun seat => mkSeat (decimal (body_row seat))
                                         (body_number seat) false)
                     [mkBodySeat 1 3])
                "12.50" 6;
              mkReservation "r3" "u3" "s1"
                (map (fun seat => mkSeat (decimal (body_row seat))
                                         (body_number seat) false)
                     [mkBodySeat 1 4])
                "12.50" 7])
  /\ takenSeats
       <$> screeningTable
             (fst (interleave store1
                     [AtSelect "s1" "u2" [mkBodySeat 1 3] "r2" 6;
                      AtSelect "s1" "u3" [mkBodySeat 1 4] "r3" 7]
                     [0; 1; 0; 1; 0; 1]%nat)) !! "s1"
     = Some [mkSeat "1" 2 false; mkSeat "1" 4 false].
Proof.
  split; [|reflexivity].
  apply (overlapping_reserves store1 "s1"
           (mkScreening "m1" "a1" 0 7200 "12.50" [mkSeat "1" 2 false])
           "u2" [mkBodySeat 1 3] "r2" 6 "u3" [mkBodySeat 1 4] "r3" 7).
  - reflexivity.
  - intros s ->%list_elem_of_singleton. split; [by exists 1|done].
  - intros seat Hin. cbn in Hin. rewrite !elem_of_cons, elem_of_nil in Hin.
    destruct Hin as [->|[->|[]]]; by split.
  - intros seat Hin (s & ->%list_elem_of_singleton & _ & Hnum).
    cbn in Hin. rewrite !elem_of_cons, elem_of_nil in Hin.
    destruct Hin as [->|[->|[]]]; discriminate Hnum.
  - apply fresh_id_iff. reflexivity.
  - apply fresh_id_iff. reflexivity.
  - discriminate.
Defined.

Lemma step_keeps st t :
  unique_ids st ->
  unique_ids (fst (step st t))
  /\ reservationTable st `prefix_of` reservationTable (fst (step st t))
  /\ dom (screeningTable (fst (step st t))) = dom (screeningTable st).
Proof.
  intros Hpk.
  destruct t as [sid uid seats0 uuid now|sid uid seats0 uuid now screening
                |sid uid seats0 uuid now screening|r]; cbn [step].
  - destruct (select_screening st sid) as [screening|]; [|done].
    by destruct (first_conflict _ _).
  - cbn. split; [done|]. split; [done|]. apply dom_alter_L.
  - destruct (insert_reservation _ _) as [st2|] eqn:Hins; [|done].
    apply insert_reservation_Some in Hins as [Hfresh ->]. cbn.
    split; [|split; [by apply prefix_app_r|done]].
    unfold unique_ids. cbn. rewrite fmap_app. apply NoDup_app.
    repeat split; [done| |apply NoDup_singleton].
    intros x Hx [->|[]%elem_of_nil]%elem_of_cons. by apply Hfresh.
  - done.
Qed.

(** X12.  Under any schedule of [reserve] calls in flight the reservation
    ids stay distinct, no reservation is removed or changed (the table only
    grows at its end) and no screening is added or removed. *)
Theorem interleave_keeps sched : forall st ts,
  unique_ids st ->
  unique_ids (fst (interleave st ts sched))
  /\ reservationTable st
     `prefix_of` reservationTable (fst (interleave st ts sched))
  /\ dom (screeningTable (fst (interleave st ts sched)))
     = dom (screeningTable st).
Proof.
  induction sched as [|i sched IH]; intros st ts Hpk; [done|].
  cbn [interleave]. destruct (ts !! i) as [t|]; [|by apply IH].
  destruct (step_keeps st t Hpk) as (Hpk1 & Hpre1 & Hdom1).
  destruct (step st t) as [st1 t1]. cbn [fst] in *.
  destruct (IH st1 (<[i := t1]> ts) Hpk1) as (Hpk2 & Hpre2 & Hdom2).
  split; [done|]. split; [by etrans|]. by rewrite Hdom2.
Qed.

Lemma interleave_keeps_witness :
  unique_ids (fst (interleave store1
                     [AtSelect "s1" "u2" [mkBodySeat 1 3] "r1" 6;
                      AtSelect "s1" "u3" [mkBodySeat 1 3] "r3" 7]
                     [0; 1; 1; 0; 0; 1]%nat))
  /\ reservationTable store1
     `prefix_of` reservationTable
                   (fst (interleave store1
                           [AtSelect "s1" "u2" [mkBodySeat 1 3] "r1" 6;
                            AtSelect "s1" "u3" [mkBodySeat 1 3] "r3" 7]
                           [0; 1; 1; 0; 0; 1]%nat))
  /\ dom (screeningTable
            (fst (interleave store1
                    [AtSelect "s1" "u2" [mkBodySeat 1 3] "r1" 6;
                     AtSelect "s1" "u3" [mkBodySeat 1 3] "r3" 7]
                    [0; 1; 1; 0; 0; 1]%nat)))
     = dom (screeningTable store1).
Proof.
  apply (interleave_keeps [0; 1; 1; 0; 0; 1]%nat store1).
  apply store1_consistent.
Defined.

(** ** The admin handlers *)

Lemma books_movie_true tbl mid r :
  books_movie tbl mid r = true <->
  exists s, tbl !! screeningId r = Some s /\ movieId s = mid.
Proof.
  unfold books_movie, of_movie.
  destruct (tbl !! screeningId r) as [s|]; split.
  - intros H%String.eqb_eq. eauto.
  - intros (s' & [= <-] & H). by apply String.eqb_eq.
  - done.
  - by intros (s' & [=] & _).
Qed.

Lemma of_movie_false mid s : of_movie mid s = false <-> movieId s <> mid.
Proof.
  unfold of_movie. by rewrite <- not_true_iff_false, String.eqb_eq.
Qed.


Lemma delete_screening_store db sid s :
  screeningTable (store db) !! sid = Some s ->
  fst (delete_screening db sid)
  = with_store db
      (mkStore (delete sid (screeningTable (store db)))
               (List.filter (fun r => negb (of_screening sid r))
                            (reservationTable (store db)))).
Proof. intros Hs. unfold delete_screening. by rewrite Hs. Qed.

Lemma delete_screening_missing db sid :
  screeningTable (store db) !! sid = None ->
  fst (delete_screening db sid) = db.
Proof. intros Hs. unfold delete_screening. by rewrite Hs. Qed.

Lemma no_reservation_without_screening st sid r :
  reservation_fk st -> screeningTable st !! sid = None ->
  r ∈ reservationTable st -> screeningId r <> sid.
Proof.
  intros Hfk Hs Hr <-. destruct (Hfk r Hr) as [s Hs']. congruence.
Qed.

(** X13.  [DELETE /admin/screening/:id] gives the same answer whether or
    not the screening exists, and on a database that satisfies the foreign
    key of its reservations it removes the screening together with exactly
    the reservations made for it, and nothing else. *)
Theorem delete_screening_effect db sid :
  reservation_fk (store db) ->
  snd (delete_screening db sid) = ScreeningDeleted
  /\ screeningTable (store (fst (delete_screening db sid))) !! sid = None
  /\ (forall sid', sid' <> sid ->
        screeningTable (store (fst (delete_screening db sid))) !! sid'
        = screeningTable (store db) !! sid')
  /\ (forall r,
        r ∈ reservationTable (store (fst (delete_screening db sid))) <->
        r ∈ reservationTable (store db) /\ screeningId r <> sid)
  /\ movieTable (fst (delete_screening db sid)) = movieTable db
  /\ auditoriumTable (fst (delete_screening db sid)) = auditoriumTable db.
Proof.
  intros Hfk. split; [unfold delete_screening; by destruct (_ !! _)|].
  destruct (screeningTable (store db) !! sid) as [s|] eqn:Hs.
  - rewrite (delete_screening_store db sid s Hs). cbn.
    split; [apply lookup_delete_eq|].
    split; [intros sid' Hne; by apply lookup_delete_ne|].
    split; [|done]. intros r.
    rewrite elem_of_filter_bool, negb_true_iff, <- not_true_iff_false.
    by rewrite of_screening_true.
  - rewrite (delete_screening_missing db sid Hs).
    split; [done|]. split; [done|]. split; [|done].
    intros r. split; [|by intros [? _]].
    intros Hr. split; [done|].
    by apply (no_reservation_without_screening (store db)).
Qed.

Lemma db2_integral : integral db2.
Proof.
  split.
  - apply store2_consistent.
  - intros sid s Hs. cbn in Hs.
    apply lookup_singleton_Some in Hs as [_ <-]. cbn. set_solver.
  - intros r Hr. cbn in Hr. rewrite !elem_of_cons, elem_of_nil in Hr.
    destruct Hr as [->|[->|[]]]; by eexists.
Qed.

Lemma delete_screening_effect_witness :
  snd (delete_screening db2 "s1") = ScreeningDeleted
  /\ screeningTable (store (fst (delete_screening db2 "s1"))) !! "s1" = None
  /\ (forall sid', sid' <> "s1" ->
        screeningTable (store (fst (delete_screening db2 "s1"))) !! sid'
        = screeningTable (store db2) !! sid')
  /\ (forall r,
        r ∈ reservationTable (store (fst (delete_screening db2 "s1"))) <->
        r ∈ reservationTable (store db2) /\ screeningId r <> "s1")
  /\ movieTable (fst (delete_screening db2 "s1")) = movieTable db2
  /\ auditoriumTable (fst (delete_screening db2 "s1")) = auditoriumTable db2.
Proof.
  apply (delete_screening_effect db2 "s1"). apply db2_integral.
Defined.

(** X18.  After [DELETE /admin/screening/:id] the screening is gone for its
    users too: a [reserve] on it answers 404, screening not found, and the
    [cancel] of a user who had reserved answers 404, reservation not found,
    as the reservation went with the screening. *)
Theorem deleted_screening_is_gone db sid uid seats0 uuid now :
  reservation_fk (store db) ->
  reserve (store (fst (delete_screening db sid))) sid uid seats0 uuid now
  = (store (fst (delete_screening db sid)),
     ErrorReply 404 "Screening not found")
  /\ cancel (store (fst (delete_screening db sid))) sid uid
     = (store (fst (delete_screening db sid)),
        ErrorReply 404 "Reservation not found").
Proof.
  intros Hfk.
  destruct (delete_screening_effect db sid Hfk) as (_ & Hgone & _ & Hres & _).
  split.
  - unfold reserve, select_screening. by rewrite Hgone.
  - unfold cancel, select_reservation.
    destruct (List.find _ _) as [r|] eqn:E; [|done].
    apply find_some in E as [Hin Hf].
    apply for_screening_and_user_true in Hf as [Hs _].
    apply list_elem_of_In, Hres in Hin. by destruct Hin.
Qed.

Lemma deleted_screening_is_gone_witness :
  reserve (store (fst (delete_screening db2 "s1"))) "s1" "u2"
          [mkBodySeat 9 9] "r3" 7
  = (store (fst (delete_screening db2 "s1")),
     ErrorReply 404 "Screening not found")
  /\ cancel (store (fst (delete_screening db2 "s1"))) "s1" "u2"
     = (store (fst (delete_screening db2 "s1")),
        ErrorReply 404 "Reservation not found").
Proof.
  apply (deleted_screening_is_gone db2 "s1" "u2" [mkBodySeat 9 9] "r3" 7).
  apply db2_integral.
Defined.




Lemma create_screening_added db m a s0 e0 p u db' newId :
  create_screening db m a s0 e0 p u = (db', ScreeningAdded newId) ->
  exists s e,
    s0 = Some s /\ e0 = Some e /\ newId = u
    /\ screeningTable (store db) !! u = None
    /\ m ∈ movieTable db /\ a ∈ auditoriumTable db
    /\ db' = with_store db
               (mkStore (<[u := mkScreening m a s e p []]>
                           (screeningTable (store db)))
                        (reservationTable (store db))).
Proof.
  unfold create_screening.
  destruct s0 as [s|], e0 as [e|]; try done.
  destruct (screeningTable (store db) !! u) eqn:Hu; [done|].
  destruct (bool_decide (m ∈ movieTable db)) eqn:Hm; [|done].
  destruct (bool_decide (a ∈ auditoriumTable db)) eqn:Ha; [|done].
  cbn [andb]. intros [= <- <-].
  apply bool_decide_eq_true in Hm, Ha. by exists s, e.
Qed.







(** X14.  A screening that [POST /admin/screening] has just added has
    every seat free: a [reserve] on it with a new UUID succeeds whatever
    seats it asks for. *)
Theorem new_screening_is_free db m a s0 e0 p u db' newId
    uid seats0 uuid now :
  create_screening db m a s0 e0 p u = (db', ScreeningAdded newId) ->
  uuid ∉ id <$> reservationTable (store db) ->
  snd (reserve (store db') newId uid seats0 uuid now)
  = ReservationSuccessful uuid.
Proof.
  intros (s & e & -> & -> & -> & Hu & Hm & Ha & ->)%create_screening_added
         Hfresh.
  cbn [store with_store].
  rewrite (reserve_accepts _ u uid seats0 uuid now
             (mkScreening m a s e p [])); [done| | |done].
  - cbn. apply lookup_insert_eq.
  - intros seat _ (t & Ht & _). by apply elem_of_nil in Ht.
Qed.

Lemma new_screening_is_free_witness :
  snd (reserve
         (store (fst (create_screening db2 "m1" "a1" (Some 10) (Some 20)
                                       "9.00" "s2")))
         "s2" "u1" [mkBodySeat 1 2; mkBodySeat (-4) 0] "r3" 7)
  = ReservationSuccessful "r3".
Proof.
  apply (new_screening_is_free db2 "m1" "a1" (Some 10) (Some 20) "9.00" "s2"
           _ "s2" "u1" [mkBodySeat 1 2; mkBodySeat (-4) 0] "r3" 7).
  - reflexivity.
  - apply fresh_id_iff. reflexivity.
Defined.

(** X16.  Deleting a screening right after adding it gives back the
    database as it was, when the foreign key of the reservations holds. *)
Theorem create_then_delete_screening db m a s0 e0 p u db1 newId :
  reservation_fk (store db) ->
  create_screening db m a s0 e0 p u = (db1, ScreeningAdded newId) ->
  delete_screening db1 newId = (db, ScreeningDeleted).
Proof.
  intros Hfk
    (s & e & -> & -> & -> & Hu & Hm & Ha & ->)%create_screening_added.
  unfold delete_screening. cbn [store with_store screeningTable].
  rewrite lookup_insert_eq. f_equal.
  destruct db as [ms aus [tbl rs]]. unfold with_store. cbn in *.
  do 2 f_equal; [by apply delete_insert_id|].
  apply filter_all. intros r Hr.
  apply negb_true_iff, not_true_iff_false. intros H%of_screening_true.
  by destruct (no_reservation_without_screening (mkStore tbl rs) u r).
Qed.

Lemma create_then_delete_screening_witness :
  delete_screening
    (fst (create_screening db2 "m1" "a1" (Some 10) (Some 20) "9.00" "s2"))
    "s2"
  = (db2, ScreeningDeleted).
Proof.
  apply (create_then_delete_screening db2 "m1" "a1" (Some 10) (Some 20)
           "9.00" "s2" _ "s2").
  - apply db2_integral.
  - reflexivity.
Defined.

(** X17.  On a database that satisfies its foreign keys,
    [DELETE /admin/movie/:id] removes the movie, every screening of that
    movie and every reservation for such a screening, and nothing else; the
    answer is the same whether or not the movie exists. *)
Theorem delete_movie_effect db mid :
  screening_fk db -> reservation_fk (store db) ->
  snd (delete_movie db mid) = MovieDeleted
  /\ (forall m, m ∈ movieTable (fst (delete_movie db mid)) <->
                m ∈ movieTable db /\ m <> mid)
  /\ auditoriumTable (fst (delete_movie db mid)) = auditoriumTable db
  /\ (forall sid s,
        screeningTable (store (fst (delete_movie db mid))) !! sid = Some s
        <-> screeningTable (store db) !! sid = Some s /\ movieId s <> mid)
  /\ (forall r,
        r ∈ reservationTable (store (fst (delete_movie db mid))) <->
        r ∈ reservationTable (store db)
        /\ exists s, screeningTable (store db) !! screeningId r = Some s
                     /\ movieId s <> mid).
Proof.
  intros Hsfk Hrfk. unfold delete_movie.
  destruct (bool_decide (mid ∈ movieTable db)) eqn:E;
    cbn [fst snd movieTable auditoriumTable store screeningTable
         reservationTable].
  - split; [done|]. split; [intros m; set_solver|]. split; [done|]. split.
    + intros sid s. rewrite map_lookup_filter_Some. cbn.
      by rewrite of_movie_false.
    + intros r.
      rewrite elem_of_filter_bool, negb_true_iff, <- not_true_iff_false.
      rewrite books_movie_true. split; intros [Hr H]; (split; [done|]).
      * destruct (Hrfk r Hr) as [s Hs]. exists s. split; [done|].
        intros Hm. apply H. eauto.
      * destruct H as (s & Hs & Hm). intros (s' & Hs' & Hm'). congruence.
  - apply bool_decide_eq_false in E.
    assert (Hno : forall sid s, screeningTable (store db) !! sid = Some s ->
                                movieId s <> mid).
    { intros sid s Hs Hm. destruct (Hsfk sid s Hs) as [Hin _]. congruence. }
    split; [done|]. split.
    { intros m. split; [|by intros [? _]].
      intros Hm. split; [done|]. by intros ->. }
    split; [done|]. split.
    + intros sid s. split; [|by intros [? _]]. eauto.
    + intros r. split; [|by intros [? _]].
      intros Hr. split; [done|]. destruct (Hrfk r Hr) as [s Hs]. eauto.
Qed.

Lemma delete_movie_effect_witness :
  snd (delete_movie db2 "m1") = MovieDeleted
  /\ (forall m, m ∈ movieTable (fst (delete_movie db2 "m1")) <->
                m ∈ movieTable db2 /\ m <> "m1")
  /\ auditoriumTable (fst (delete_movie db2 "m1")) = auditoriumTable db2
  /\ (forall sid s,
        screeningTable (store (fst (delete_movie db2 "m1"))) !! sid = Some s
        <-> screeningTable (store db2) !! sid = Some s /\ movieId s <> "m1")
  /\ (forall r,
        r ∈ reservationTable (store (fst (delete_movie db2 "m1"))) <->
        r ∈ reservationTable (store db2)
        /\ exists s, screeningTable (store db2) !! screeningId r = Some s
                     /\ movieId s <> "m1").
Proof.
  apply (delete_movie_effect db2 "m1"); apply db2_integral.
Defined.

Example delete_movie_db2 :
  store (fst (delete_movie db2 "m1")) = mkStore ∅ [].
Proof. reflexivity. Qed.

(** ** A [cancel] that overlaps a [reserve] *)

(** A [cancel] whose four statements run with no other call in between is
    [cancel]. *)
Lemma cancel_in_four_steps st sid uid :
  interleave_tasks st [Cancelling (AtSelectReservation sid uid)]
                   [0; 0; 0; 0]%nat
  = (fst (cancel st sid uid),
     [Cancelling (CancelReturned (snd (cancel st sid uid)))]).
Proof.
  unfold cancel.
  cbn [interleave_tasks lookup list_lookup step_task step_cancel].
  destruct (select_reservation st sid uid) as [found|]; [|done].
  cbn [interleave_tasks lookup list_lookup insert list_insert step_task
       step_cancel].
  by destruct (select_screening (delete_reservation st (id found)) sid).
Qed.

Lemma filter_other_ids i (l : list Reservation) :
  List.filter (fun r => negb (has_id i r)) l = filter (fun r => id r <> i) l.
Proof.
  induction l as [|a l IH]; [done|].
  cbn [List.filter]. rewrite filter_cons, IH.
  destruct (has_id i a) eqn:E; cbn [negb].
  - apply has_id_true in E. by rewrite decide_False by (by intros ?).
  - rewrite decide_True; [done|]. intros H%has_id_true. congruence.
Qed.

(** X19.  A [cancel] and a [reserve] on the same screening that overlap
    both succeed, and the one that writes the taken seats last overwrites
    the other.  When the [cancel] read the screening before the [reserve]
    wrote it and writes after, the seats of the new reservation are not
    marked taken; when the [reserve] read the screening before the [cancel]
    and writes after, the seats of the cancelled reservation stay marked
    taken.  The stored seats have the numeral of a safe integer as row and a
    safe number, and the requested coordinates are safe. *)
Theorem overlapping_cancel_and_reserve st sid screening uidA found
    uidB seats0 uuid now :
  screeningTable st !! sid = Some screening ->
  select_reservation st sid uidA = Some found ->
  (forall s, s ∈ takenSeats screening ++ seats found -> safe_seat s) ->
  (forall seat, seat ∈ seats0 -> safe_request seat) ->
  (forall seat, seat ∈ seats0 -> ~ holds (takenSeats screening) seat) ->
  uuid ∉ id <$> reservationTable st ->
  (exists st' screening',
     interleave_tasks st
       [Cancelling (AtSelectReservation sid uidA);
        Reserving (AtSelect sid uidB seats0 uuid now)]
       [0; 0; 0; 1; 1; 1; 0]%nat
     = (st', [Cancelling (CancelReturned ReservationCancelled);
              Reserving (Returned (ReservationSuccessful uuid))])
     /\ screeningTable st' !! sid = Some screening'
     /\ takenSeats screening'
        = filter (fun seat => seat_id seat ∉ seat_id <$> seats found)
                 (takenSeats screening)
     /\ reservationTable st'
        = filter (fun r => id r <> id found) (reservationTable st)
          ++ [mkReservation uuid uidB sid
                (map (fun seat => mkSeat (decimal (body_row seat))
                                         (body_number seat) false) seats0)
                (price screening) now])
  /\ (exists st' screening',
        interleave_tasks st
          [Cancelling (AtSelectReservation sid uidA);
           Reserving (AtSelect sid uidB seats0 uuid now)]
          [1; 0; 0; 0; 0; 1; 1]%nat
        = (st', [Cancelling (CancelReturned ReservationCancelled);
                 Reserving (Returned (ReservationSuccessful uuid))])
        /\ screeningTable st' !! sid = Some screening'
        /\ takenSeats screening'
           = takenSeats screening
             ++ map (fun seat => mkSeat (decimal (body_row seat))
                                        (body_number seat) false) seats0
        /\ reservationTable st'
           = filter (fun r => id r <> id found) (reservationTable st)
             ++ [mkReservation uuid uidB sid
                   (map (fun seat => mkSeat (decimal (body_row seat))
                                            (body_number seat) false) seats0)
                   (price screening) now]).
Proof.
  intros Hs Hsel Hrows _ Hheld Hfresh.
  assert (HrowsT : forall s, s ∈ takenSeats screening -> safe_seat s).
  { intros s Hin. apply Hrows, elem_of_app. by left. }
  assert (HrowsF : forall s, s ∈ seats found -> safe_seat s).
  { intros s Hin. apply Hrows, elem_of_app. by right. }
  pose proof (none_held_free _ _ HrowsT Hheld) as Hfree.
  apply first_conflict_None in Hfree.
  assert (Hfresh' : uuid ∉ id <$> List.filter
                                    (fun r => negb (has_id (id found) r))
                                    (reservationTable st)).
  { intros (r & -> & Hr)%list_elem_of_fmap. apply Hfresh.
    apply list_elem_of_fmap_2. by apply elem_of_deleted in Hr as [? _]. }
  split.
  - eexists _, (set_takenSeats
                  (List.filter (stays_taken found) (takenSeats screening))
                  screening).
    run_tasks. rewrite Hsel. run_tasks. unfold select_screening. run_tasks.
    rewrite Hs. run_tasks. rewrite Hs, Hfree. run_tasks.
    unfold insert_reservation. run_tasks. cbn [id].
    rewrite (proj2 (fresh_id_iff _ _) Hfresh').
    unfold update_takenSeats. cbn [screeningTable reservationTable].
    split; [done|]. cbn [screeningTable reservationTable].
    split; [by rewrite !lookup_alter_eq, Hs|].
    split; [by apply filter_stays_taken|].
    by rewrite filter_other_ids.
  - eexists _, (set_takenSeats (takenSeats screening ++ map as_taken seats0)
                               screening).
    run_tasks. unfold select_screening. rewrite Hs, Hfree. run_tasks.
    rewrite Hsel. run_tasks. unfold select_screening. run_tasks.
    rewrite Hs. run_tasks.
    unfold insert_reservation. run_tasks. cbn [id].
    rewrite (proj2 (fresh_id_iff _ _) Hfresh').
    unfold update_takenSeats. cbn [screeningTable reservationTable].
    split; [done|]. cbn [screeningTable reservationTable].
    split; [by rewrite !lookup_alter_eq, Hs|].
    split; [done|]. by rewrite filter_other_ids.
Qed.

Lemma overlapping_cancel_and_reserve_witness :
  ((exists st' screening',
      interleave_tasks store1
        [Cancelling (AtSelectReservation "s1" "u1");
         Reserving (AtSelect "s1" "u2" [mkBodySeat 1 3] "r2" 6)]
        [0; 0; 0; 1; 1; 1; 0]%nat
      = (st', [Cancelling (CancelReturned ReservationCancelled);
               Reserving (Returned (ReservationSuccessful "r2"))])
      /\ screeningTable st' !! "s1" = Some screening'
      /\ takenSeats screening'
         = filter (fun seat => seat_id seat
                               ∉ seat_id <$> [mkSeat "1" 2 false])
                  [mkSeat "1" 2 false]
      /\ reservationTable st'
         = filter (fun r => id r <> "r1") (reservationTable store1)
           ++ [mkReservation "r2" "u2" "s1"
                 (map (fun seat => mkSeat (decimal (body_row seat))
                                          (body_number seat) false)
                      [mkBodySeat 1 3])
                 "12.50" 6])
   /\ (exists st' screening',
         interleave_tasks store1
           [Cancelling (AtSelectReservation "s1" "u1");
            Reserving (AtSelect "s1" "u2" [mkBodySeat 1 3] "r2" 6)]
           [1; 0; 0; 0; 0; 1; 1]%nat
         = (st', [Cancelling (CancelReturned ReservationCancelled);
                  Reserving (Returned (ReservationSuccessful "r2"))])
         /\ screeningTable st' !! "s1" = Some screening'
         /\ takenSeats screening'
            = [mkSeat "1" 2 false]
              ++ map (fun seat => mkSeat (decimal (body_row seat))
                                         (body_number seat) false)
                     [mkBodySeat 1 3]
         /\ reservationTable st'
            = filter (fun r => id r <> "r1") (reservationTable store1)
              ++ [mkReservation "r2" "u2" "s1"
                    (map (fun seat => mkSeat (decimal (body_row seat))
                                             (body_number seat) false)
                         [mkBodySeat 1 3])
                    "12.50" 6]))
  /\ takenSeats
       <$> screeningTable
             (fst (interleave_tasks store1
                     [Cancelling (AtSelectReservation "s1" "u1");
                      Reserving (AtSelect "s1" "u2" [mkBodySeat 1 3] "r2" 6)]
                     [0; 0; 0; 1; 1; 1; 0]%nat)) !! "s1"
     = Some []
  /\ takenSeats
       <$> screeningTable
             (fst (interleave_tasks store1
                     [Cancelling (AtSelectReservation "s1" "u1");
                      Reserving (AtSelect "s1" "u2" [mkBodySeat 1 3] "r2" 6)]
                     [1; 0; 0; 0; 0; 1; 1]%nat)) !! "s1"
     = Some [mkSeat "1" 2 false; mkSeat "1" 3 false].
Proof.
  split; [|split; reflexivity].
  apply (overlapping_cancel_and_reserve store1 "s1"
           (set_takenSeats [mkSeat "1" 2 false] screening0) "u1"
           (mkReservation "r1" "u1" "s1" [mkSeat "1" 2 false] "12.50" 5)
           "u2" [mkBodySeat 1 3] "r2" 6).
  - reflexivity.
  - reflexivity.
  - intros s Hin. cbn in Hin. rewrite !elem_of_cons, elem_of_nil in Hin.
    destruct Hin as [->|[->|[]]]; (split; [by exists 1|done]).
  - intros seat ->%list_elem_of_singleton. by split.
  - intros seat ->%list_elem_of_singleton
           (s & ->%list_elem_of_singleton & _ & Hnum).
    discriminate Hnum.
  - apply fresh_id_iff. reflexivity.
Defined.

Example overlap_store1 :
  takenSeats
    <$> screeningTable
          (fst (interleave_tasks store1
                  [Cancelling (AtSelectReservation "s1" "u1");
                   Reserving (AtSelect "s1" "u2" [mkBodySeat 1 3] "r2" 6)]
                  [0; 0; 0; 1; 1; 1; 0]%nat)) !! "s1"
  = Some [].
Proof. reflexivity. Qed.

(** ** Cancelling twice *)

(** X20.  On a table with distinct ids, when a user holds one reservation
    for a screening, the first [cancel] succeeds and a second [cancel] right
    after it answers 404, reservation not found, and changes nothing. *)
Theorem second_cancel_not_found st sid uid :
  unique_ids st ->
  held st sid uid = 1%nat ->
  exists st',
    cancel st sid uid = (st', ReservationCancelled)
    /\ cancel st' sid uid = (st', ErrorReply 404 "Reservation not found").
Proof.
  intros Hpk Hheld.
  assert (exists r0, r0 ∈ reservationTable st
                     /\ screeningId r0 = sid /\ userId r0 = uid)
    as (r0 & Hin & Hs & Hu).
  { unfold held in Hheld.
    destruct (List.filter _ _) as [|r0 l] eqn:E; [done|].
    assert (Hr0 : r0 ∈ List.filter (for_screening_and_user sid uid)
                                   (reservationTable st))
      by (rewrite E; apply list_elem_of_here).
    apply elem_of_filter_bool in Hr0 as [? Hf].
    apply for_screening_and_user_true in Hf as [? ?]. eauto. }
  destruct (select_reservation_first st sid uid r0 Hin Hs Hu)
    as (before & r & after & Hsplit & Hrs & Hru & _ & Hsel).
  destruct (cancel_found st sid uid r Hsel) as (st' & Hc & Hres & _).
  assert (Hres' : reservationTable st' = before ++ after).
  { rewrite Hres, Hsplit. apply delete_unique.
    unfold unique_ids in Hpk. by rewrite Hsplit in Hpk. }
  exists st'. split; [done|].
  rewrite (held_app st before (r :: after)) in Hheld by done.
  cbn [List.filter] in Hheld.
  rewrite (proj2 (for_screening_and_user_true sid uid r)) in Hheld by done.
  cbn [length] in Hheld.
  unfold cancel, select_reservation. rewrite Hres'.
  destruct (List.find _ _) as [x|] eqn:E; [|done].
  apply find_some in E as [Hx Hf].
  assert (Hx' : x ∈ List.filter (for_screening_and_user sid uid) before
                ++ List.filter (for_screening_and_user sid uid) after).
  { rewrite <- List.filter_app. apply elem_of_filter_bool.
    by rewrite list_elem_of_In. }
  destruct (List.filter _ before), (List.filter _ after);
    cbn in Hheld; try lia.
  by apply elem_of_nil in Hx'.
Qed.

Lemma second_cancel_not_found_witness :
  exists st',
    cancel store2 "s1" "u2" = (st', ReservationCancelled)
    /\ cancel st' "s1" "u2" = (st', ErrorReply 404 "Reservation not found").
Proof.
  apply (second_cancel_not_found store2 "s1" "u2").
  - apply store2_consistent.
  - reflexivity.
Defined.
